(** * Command-line validators of the skills repository

    Each script under [scripts/] loads one JSON document, runs an ordered
    list of checks that append to an [errors] list, prints one result
    envelope with [json.dumps(..., indent=2)] and returns the exit status.

    This development embeds every [main] as a function from the loaded
    document to an [outcome]: the envelope it prints with the status it
    returns, or the exception it does not catch.  Values are the ones
    [json.load] builds (None, bool, int, float, str, list, dict).  The
    library functions the scripts call ([str], [str.strip], [str.lower],
    [urllib.parse.urlparse], [json.dumps]) are the operations of a
    [PyRuntime]; [AsciiRuntime] gives them on ASCII text.

    A run starts from the loaded document: text that [json.load] rejects
    never reaches [main].  The interpreter's recursion limit is not
    described. *)

From Stdlib Require Import String Ascii List ZArith Bool Permutation.
From Stdlib Require Import Floats.SpecFloat Numbers.DecimalString.
Import ListNotations.
Local Open Scope list_scope.
Local Open Scope Z_scope.
Local Open Scope string_scope.
Set Warnings "-register-all".

(** ** Values loaded by [json.load] *)

(** A dict keeps insertion order; [json.dumps] prints in that order.  A key
    is looked up at its first binding. *)
Definition dict (V : Type) : Type := list (string * V).

Inductive json : Type :=
| JNull
| JBool (b : bool)
| JInt (n : Z)
| JFloat (f : spec_float)
| JStr (s : string)
| JList (l : list json)
| JDict (d : list (string * json)).

Fixpoint lookup {V : Type} (k : string) (d : dict V) : option V :=
  match d with
  | [] => None
  | (k', v) :: d' => if k =? k' then Some v else lookup k d'
  end.

(** [k in d] *)
Definition has_key {V : Type} (k : string) (d : dict V) : bool :=
  match lookup k d with Some _ => true | None => false end.

(** [d.get(k, dflt)] and [d.get(k)] *)
Definition get_default (d : dict json) (k : string) (dflt : json) : json :=
  match lookup k d with Some v => v | None => dflt end.

Definition get (d : dict json) (k : string) : json := get_default d k JNull.

(** [d[k] = v]: an existing key keeps its position. *)
Fixpoint dict_set {V : Type} (k : string) (v : V) (d : dict V) : dict V :=
  match d with
  | [] => [(k, v)]
  | (k', v') :: d' =>
      if k =? k' then (k', v) :: d' else (k', v') :: dict_set k v d'
  end.

(** The dict without key [k]. *)
Fixpoint dict_remove {V : Type} (k : string) (d : dict V) : dict V :=
  match d with
  | [] => []
  | (k', v') :: d' =>
      if k =? k' then dict_remove k d' else (k', v') :: dict_remove k d'
  end.

(** ** Python's view of these values *)

(** [isinstance(v, str)], [isinstance(v, dict)], [isinstance(v, list)] *)
Definition is_str (v : json) : bool :=
  match v with JStr _ => true | _ => false end.
Definition is_dict (v : json) : bool :=
  match v with JDict _ => true | _ => false end.
Definition is_list (v : json) : bool :=
  match v with JList _ => true | _ => false end.

(** [isinstance(v, int)]: [bool] is a subclass of [int]. *)
Definition is_int (v : json) : bool :=
  match v with JInt _ | JBool _ => true | _ => false end.

Definition Z_of_bool (b : bool) : Z := if b then 1 else 0.

(** [v is None], [v is True] *)
Definition is_None (v : json) : bool :=
  match v with JNull => true | _ => false end.
Definition is_True (v : json) : bool :=
  match v with JBool true => true | _ => false end.

(** [bool(v)] *)
Definition truthy (v : json) : bool :=
  match v with
  | JNull => false
  | JBool b => b
  | JInt n => negb (n =? 0)%Z
  | JFloat (S754_zero _) => false
  | JFloat _ => true
  | JStr s => negb (s =? "")
  | JList [] => false
  | JList _ => true
  | JDict [] => false
  | JDict _ => true
  end.

(** A float equal to the integer [n]: exact, as CPython compares. *)
Definition float_eq_Z (f : spec_float) (n : Z) : bool :=
  match f with
  | S754_zero _ => (n =? 0)%Z
  | S754_finite s m e =>
      let v := if s then Z.neg m else Z.pos m in
      if (0 <=? e)%Z then (n =? v * 2 ^ e)%Z else (n * 2 ^ (- e) =? v)%Z
  | _ => false
  end.

(** [v == w] *)
Fixpoint py_eq (v w : json) : bool :=
  match v, w with
  | JNull, JNull => true
  | JBool a, JBool b => Bool.eqb a b
  | JBool a, JInt n | JInt n, JBool a => (Z_of_bool a =? n)%Z
  | JBool a, JFloat f | JFloat f, JBool a => float_eq_Z f (Z_of_bool a)
  | JInt n, JInt m => (n =? m)%Z
  | JInt n, JFloat f | JFloat f, JInt n => float_eq_Z f n
  | JFloat f, JFloat g => SFeqb f g
  | JStr s, JStr t => s =? t
  | JList l, JList m =>
      (fix all2 (l : list json) (m : list json) : bool :=
         match l, m with
         | [], [] => true
         | x :: l', y :: m' => py_eq x y && all2 l' m'
         | _, _ => false
         end) l m
  | JDict d, JDict e =>
      (length d =? length e)%nat
      && forallb (fun kv => match lookup (fst kv) e with
                            | Some w' => py_eq (snd kv) w'
                            | None => false
                            end) d
  | _, _ => false
  end.

Definition py_ne (v w : json) : bool := negb (py_eq v w).

(** [hash(v)] raises TypeError on lists and dicts. *)
Definition hashable (v : json) : bool :=
  match v with JList _ | JDict _ => false | _ => true end.

(** [v in S] for a set of str; [v] hashable. *)
Definition in_strs (v : json) (S : list string) : bool :=
  match v with JStr s => existsb (String.eqb s) S | _ => false end.

(** [needle in s] on text *)
Fixpoint contains (needle s : string) : bool :=
  prefix needle s
  || match s with
     | EmptyString => false
     | String _ s' => contains needle s'
     end.

(** [str(i)] of an index *)
Definition str_of_nat (i : nat) : string :=
  NilZero.string_of_uint (Nat.to_uint i).

(** ** The Python runtime *)

(** What [main] reads of a [ParseResult]. *)
Record ParseResult : Type := {
  scheme : string;
  hostname : option string;
  url_path : string
}.

Class PyRuntime : Type := {
  (** [str(v)]; also what an f-string does with [{v}] *)
  py_str : json -> string;
  (** [s.strip()] *)
  py_strip : string -> string;
  (** [s.lower()] *)
  py_lower : string -> string;
  (** [urlparse(s)]; [None] when it raises ValueError *)
  urlparse : string -> option ParseResult;
  (** [json.dumps(v, indent=2)] *)
  json_dumps : json -> string
}.

(** A process iterates a set of str in an order fixed by its hash seed. *)
Record process : Type := { set_iter : list string -> list string }.

Definition seeded (p : process) : Prop :=
  forall S : list string, Permutation (set_iter p S) S.

Fixpoint insert_sorted (s : string) (l : list string) : list string :=
  match l with
  | [] => [s]
  | t :: l' => if String.leb s t then s :: l else t :: insert_sorted s l'
  end.

(** [sorted(xs)] on str *)
Definition sorted (xs : list string) : list string :=
  fold_right insert_sorted [] xs.

(** ** Errors, envelopes, outcomes *)

Record error : Type := {
  code : string;
  message : string;
  path : string;
  remediation : string
}.

Definition err (code message path remediation : string) : error :=
  {| code := code; message := message; path := path;
     remediation := remediation |}.

Record envelope : Type := mk_envelope {
  ok : bool;
  tool : string;
  errors : list error;
  warnings : list string;
  result : dict json
}.

Inductive pyexc : Type := AttributeError | TypeError | ValueError | KeyError.

(** [Emit env c]: the envelope was printed and [main] returned [c].
    [Crash e]: an uncaught exception; nothing is printed on standard
    output and the interpreter exits with status 1. *)
Inductive outcome : Type :=
| Emit (env : envelope) (status : Z)
| Crash (e : pyexc).

Definition exit_status (o : outcome) : Z :=
  match o with Emit _ c => c | Crash _ => 1 end.

(** The dict literal handed to [json.dumps]. *)
Definition error_json (e : error) : json :=
  JDict [("code", JStr (code e)); ("message", JStr (message e));
         ("path", JStr (path e)); ("remediation", JStr (remediation e))].

Definition envelope_json (env : envelope) : json :=
  JDict [("ok", JBool (ok env)); ("tool", JStr (tool env));
         ("errors", JList (map error_json (errors env)));
         ("warnings", JList (map JStr (warnings env)));
         ("result", JDict (result env))].

(** Standard output of a run; [print] adds the newline.  The traceback of
    an uncaught exception goes to standard error. *)
Definition stdout_text {R : PyRuntime} (o : outcome) : string :=
  match o with
  | Emit env _ => json_dumps (envelope_json env) ++ String "010"%char ""
  | Crash _ => ""
  end.

(** [if c: errors.append(e)] *)
Definition check (c : bool) (e : error) (errors : list error) : list error :=
  if c then (errors ++ [e])%list else errors.

(** What [data.get] or [key in data] raises when the document is not an
    object.  [in] works on a list and on a str and raises TypeError on the
    other values; [.get] raises AttributeError on all of them. *)
Definition in_then_get_exc (data : json) : pyexc :=
  match data with
  | JList _ | JStr _ => AttributeError
  | _ => TypeError
  end.

(** ** flutterwave-integration/scripts/validate-verify-response.py *)

Module ValidateVerifyResponse.
Section Script.
Context {R : PyRuntime}.

Definition tool_name : string := "validate-verify-response".

Definition main (data : json) : outcome :=
  match data with
  | JDict data =>
      let errors : list error := [] in
      let errors :=
        fold_left
          (fun errors key =>
             check (negb (has_key key data))
               (err "MISSING_FIELD" ("Missing required field: " ++ key) key
                  ("Provide `" ++ key ++ "` in input JSON."))
               errors)
          ["expected_tx_ref"; "expected_amount"; "verify_payload"] errors in
      let payload := get_default data "verify_payload" (JDict []) in
      let '(errors, payload) :=
        match payload with
        | JDict payload => (errors, payload)
        | _ =>
            ((errors ++
              [err "INVALID_TYPE" "verify_payload must be an object"
                 "verify_payload" "Set verify_payload to a JSON object."])%list,
             [])
        end in
      let errors :=
        fold_left
          (fun errors key =>
             check (negb (has_key key payload))
               (err "MISSING_FIELD" ("verify_payload missing: " ++ key)
                  ("verify_payload." ++ key)
                  ("Populate `verify_payload." ++ key
                   ++ "` from verify API response."))
               errors)
          ["status"; "tx_ref"; "amount"] errors in
      if py_eq (get data "order_status") (JStr "paid") then
        Emit (mk_envelope true tool_name [] []
                [("action", JStr "no-op");
                 ("reason", JStr "order already paid");
                 ("idempotent", JBool true)]) 0
      else
        let expected_tx_ref := get data "expected_tx_ref" in
        let expected_amount := get data "expected_amount" in
        let status := get payload "status" in
        let tx_ref := get payload "tx_ref" in
        let amount := get payload "amount" in
        let errors :=
          check (is_str expected_tx_ref && is_str tx_ref
                 && py_ne tx_ref expected_tx_ref)
            (err "TX_REF_MISMATCH"
               "verify tx_ref does not match expected tx_ref"
               "verify_payload.tx_ref"
               "Use stored tx_ref and reject mismatches.")
            errors in
        let errors :=
          check (is_int expected_amount && is_int amount
                 && py_ne amount expected_amount)
            (err "AMOUNT_MISMATCH"
               "verify amount does not match expected amount"
               "verify_payload.amount"
               "Compare integer smallest-unit amounts from DB and verify payload.")
            errors in
        if py_eq status (JStr "success-pending-validation") then
          Emit (mk_envelope true tool_name []
                  ["await webhook confirmation before fulfillment"]
                  [("action", JStr "await-webhook");
                   ("settled", JBool false)]) 0
        else
          let errors :=
            check (py_ne status (JStr "successful"))
              (err "INVALID_STATUS"
                 ("status must be successful for immediate fulfillment, got: "
                  ++ py_str status)
                 "verify_payload.status"
                 "Treat pending/failed statuses as non-settled.")
              errors in
          match errors with
          | _ :: _ =>
              Emit (mk_envelope false tool_name errors []
                      [("action", JStr "reject")]) 1
          | [] =>
              Emit (mk_envelope true tool_name [] []
                      [("action", JStr "mark-paid"); ("tx_ref", tx_ref);
                       ("amount", amount); ("settled", JBool true)]) 0
          end
  | _ => Crash (in_then_get_exc data)
  end.

End Script.
End ValidateVerifyResponse.

(** ** paystack-integration/scripts/check-webhook-contract.py *)

Module CheckWebhookContract.
Section Script.
Context {R : PyRuntime}.

Definition tool_name : string := "check-webhook-contract".

Definition main (data : json) : outcome :=
  match data with
  | JDict data =>
      let errors : list error := [] in
      let raw_body_enabled := get data "raw_body_enabled" in
      let errors :=
        check (negb (is_True raw_body_enabled))
          (err "RAW_BODY_REQUIRED"
             "raw_body_enabled must be true for signature verification"
             "raw_body_enabled"
             "Enable raw body parsing on webhook route before JSON parse.")
          errors in
      let header_name := get data "signature_header_name" in
      let errors :=
        check (py_ne header_name (JStr "x-paystack-signature"))
          (err "WRONG_SIGNATURE_HEADER"
             "signature_header_name must be x-paystack-signature"
             "signature_header_name"
             "Read signature from `x-paystack-signature` header.")
          errors in
      let headers := get data "headers" in
      let '(errors, headers) :=
        match headers with
        | JDict headers => (errors, headers)
        | _ =>
            ((errors ++
              [err "INVALID_HEADERS" "headers must be an object" "headers"
                 "Provide request headers object."])%list,
             [])
        end in
      let signature := get headers "x-paystack-signature" in
      let errors :=
        check (negb (truthy signature))
          (err "MISSING_SIGNATURE" "Missing x-paystack-signature header"
             "headers.x-paystack-signature"
             "Require raw body and reject unsigned webhook payloads.")
          errors in
      if py_eq (get data "order_status") (JStr "paid") then
        Emit (mk_envelope true tool_name [] []
                [("action", JStr "no-op");
                 ("reason", JStr "order already paid");
                 ("idempotent", JBool true)]) 0
      else
        let expected_reference := get data "expected_reference" in
        let event_reference := get data "event_reference" in
        let errors :=
          check (truthy expected_reference && truthy event_reference
                 && py_ne expected_reference event_reference)
            (err "REFERENCE_MISMATCH"
               "Webhook reference does not match expected reference"
               "event_reference"
               "Lookup order by Paystack reference and reject mismatches.")
            errors in
        let expected_amount := get data "expected_amount_kobo" in
        let event_amount := get data "event_amount_kobo" in
        let errors :=
          check (is_int expected_amount && is_int event_amount
                 && py_ne expected_amount event_amount)
            (err "AMOUNT_MISMATCH"
               "Webhook amount does not match expected amount"
               "event_amount_kobo"
               "Compare smallest-unit integers before fulfillment.")
            errors in
        match errors with
        | _ :: _ =>
            Emit (mk_envelope false tool_name errors []
                    [("action", JStr "reject")]) 1
        | [] =>
            Emit (mk_envelope true tool_name [] []
                    [("action", JStr "process-webhook");
                     ("signature_header", JStr "x-paystack-signature")]) 0
        end
  | _ => Crash AttributeError
  end.

End Script.
End CheckWebhookContract.

(** ** paystack-integration/scripts/validate-payment-contract.py *)

Module ValidatePaymentContract.
Section Script.
Context {R : PyRuntime}.

Definition tool_name : string := "validate-payment-contract".

Definition main (data : json) : outcome :=
  match data with
  | JDict data =>
      let errors : list error := [] in
      let warnings : list string := [] in
      let required_root :=
        ["expected_reference"; "expected_amount_kobo"; "verify_payload"] in
      let errors :=
        fold_left
          (fun errors key =>
             check (negb (has_key key data))
               (err "MISSING_FIELD" ("Missing required field: " ++ key) key
                  ("Provide `" ++ key ++ "` in input JSON."))
               errors)
          required_root errors in
      let verify_payload := get_default data "verify_payload" (JDict []) in
      let '(errors, verify_payload) :=
        match verify_payload with
        | JDict verify_payload => (errors, verify_payload)
        | _ =>
            ((errors ++
              [err "INVALID_TYPE" "verify_payload must be an object"
                 "verify_payload" "Set `verify_payload` to a JSON object."])%list,
             [])
        end in
      let errors :=
        fold_left
          (fun errors key =>
             check (negb (has_key key verify_payload))
               (err "MISSING_FIELD" ("verify_payload missing: " ++ key)
                  ("verify_payload." ++ key)
                  ("Populate `verify_payload." ++ key
                   ++ "` from Paystack verify response."))
               errors)
          ["status"; "reference"; "amount"] errors in
      let order_status := get data "order_status" in
      if py_eq order_status (JStr "paid") then
        let result :=
          [("action", JStr "no-op"); ("reason", JStr "order already paid");
           ("idempotent", JBool true)] in
        Emit (mk_envelope true tool_name [] warnings result) 0
      else
        let expected_reference := get data "expected_reference" in
        let expected_amount := get data "expected_amount_kobo" in
        let status := get verify_payload "status" in
        let actual_reference := get verify_payload "reference" in
        let actual_amount := get verify_payload "amount" in
        let errors :=
          check (is_str expected_reference && is_str actual_reference
                 && py_ne actual_reference expected_reference)
            (err "REFERENCE_MISMATCH"
               "Verified reference does not match expected reference"
               "verify_payload.reference"
               "Use Paystack returned reference from initialization and verify against DB.")
            errors in
        let errors :=
          check (is_int expected_amount && is_int actual_amount
                 && py_ne actual_amount expected_amount)
            (err "AMOUNT_MISMATCH"
               "Verified amount does not match expected amount"
               "verify_payload.amount"
               "Store expected amount in kobo and compare exact integer values.")
            errors in
        let errors :=
          check (py_ne status (JStr "success"))
            (err "INVALID_STATUS"
               ("Verified status must be success, got: " ++ py_str status)
               "verify_payload.status"
               "Do not fulfill order unless verify status is `success`.")
            errors in
        match errors with
        | _ :: _ =>
            Emit (mk_envelope false tool_name errors warnings
                    [("action", JStr "reject")]) 1
        | [] =>
            let result :=
              [("action", JStr "mark-paid"); ("idempotent", JBool false);
               ("reference", actual_reference);
               ("amount_kobo", actual_amount)] in
            Emit (mk_envelope true tool_name [] warnings result) 0
        end
  | _ => Crash (in_then_get_exc data)
  end.

End Script.
End ValidatePaymentContract.

(** ** flutterwave-integration/scripts/check-webhook-signature-mode.py *)

Module CheckWebhookSignatureMode.

(** A set of str: membership does not depend on the iteration order, the
    error message goes through [sorted]. *)
Definition VALID_MODES : list string := ["verif-hash"; "hmac-sha256"].

Section Script.
Context {R : PyRuntime} (p : process).

Definition tool_name : string := "check-webhook-signature-mode".

Definition main (data : json) : outcome :=
  match data with
  | JDict data =>
      let errors : list error := [] in
      let mode := get data "signature_mode" in
      if negb (hashable mode) then Crash TypeError
      else
        let errors :=
          check (negb (in_strs mode VALID_MODES))
            (err "INVALID_SIGNATURE_MODE"
               ("signature_mode must be one of "
                ++ py_str (JList (map JStr (sorted (set_iter p VALID_MODES)))))
               "signature_mode"
               "Set signature mode to `verif-hash` or `hmac-sha256`.")
            errors in
        let headers := get data "headers" in
        let '(errors, headers) :=
          match headers with
          | JDict headers => (errors, headers)
          | _ =>
              ((errors ++
                [err "INVALID_HEADERS" "headers must be an object" "headers"
                   "Provide webhook request headers object."])%list,
               [])
          end in
        let errors :=
          check (py_eq mode (JStr "verif-hash")
                 && negb (truthy (get headers "verif-hash")))
            (err "MISSING_VERIF_HASH" "Missing verif-hash header"
               "headers.verif-hash"
               "Configure FLW_SECRET_HASH and require verif-hash header.")
            errors in
        let errors :=
          if py_eq mode (JStr "hmac-sha256") then
            let errors :=
              check (negb (is_True (get data "raw_body_enabled")))
                (err "RAW_BODY_REQUIRED"
                   "raw_body_enabled must be true for hmac-sha256 mode"
                   "raw_body_enabled"
                   "Enable raw body capture before parsing JSON payload.")
                errors in
            check (negb (truthy (get headers "x-flutterwave-signature")))
              (err "MISSING_HMAC_HEADER"
                 "Missing x-flutterwave-signature header"
                 "headers.x-flutterwave-signature"
                 "Require x-flutterwave-signature for HMAC mode.")
              errors
          else errors in
        match errors with
        | _ :: _ =>
            Emit (mk_envelope false tool_name errors []
                    [("action", JStr "reject")]) 1
        | [] =>
            Emit (mk_envelope true tool_name [] []
                    [("action", JStr "process-webhook");
                     ("signature_mode", mode)]) 0
        end
  | _ => Crash AttributeError
  end.

End Script.
End CheckWebhookSignatureMode.

(** ** social-auth-core/scripts/validate-redirect-uri.py *)

Module ValidateRedirectUri.
Section Script.
Context {R : PyRuntime}.

Definition tool_name : string := "validate-redirect-uri".

(** [bool(h)] and the JSON value of [h] for a hostname, None or a str *)
Definition host_truthy (h : option string) : bool :=
  match h with Some s => negb (s =? "") | None => false end.

Definition host_json (h : option string) : json :=
  match h with Some s => JStr s | None => JNull end.

Definition host_ne (h1 h2 : option string) : bool :=
  py_ne (host_json h1) (host_json h2).

Definition main (data : json) : outcome :=
  match data with
  | JDict data =>
      let errors : list error := [] in
      let backend_base_url := get data "backend_base_url" in
      let redirect_uri := get data "redirect_uri" in
      let errors :=
        check (negb (truthy backend_base_url))
          (err "MISSING_FIELD" "Missing backend_base_url" "backend_base_url"
             "Provide backend_base_url (e.g., https://api.example.com).")
          errors in
      let errors :=
        check (negb (truthy redirect_uri))
          (err "MISSING_FIELD" "Missing redirect_uri" "redirect_uri"
             "Provide redirect_uri exactly as configured with provider.")
          errors in
      match errors with
      | _ :: _ => Emit (mk_envelope false tool_name errors [] []) 1
      | [] =>
          match urlparse (py_str backend_base_url) with
          | None => Crash ValueError
          | Some b =>
              match urlparse (py_str redirect_uri) with
              | None => Crash ValueError
              | Some r =>
                  let errors :=
                    check (negb (existsb (String.eqb (scheme b))
                                   ["http"; "https"]))
                      (err "INVALID_URL"
                         "backend_base_url must include http/https scheme"
                         "backend_base_url" "Use a fully qualified URL.")
                      errors in
                  let errors :=
                    check (negb (existsb (String.eqb (scheme r))
                                   ["http"; "https"]))
                      (err "INVALID_URL"
                         "redirect_uri must include http/https scheme"
                         "redirect_uri"
                         "Use a fully qualified callback URL.")
                      errors in
                  let localhost_hosts := ["localhost"; "127.0.0.1"] in
                  let is_local := in_strs (host_json (hostname r))
                                    localhost_hosts in
                  let errors :=
                    check (negb (scheme r =? "https") && negb is_local)
                      (err "INSECURE_REDIRECT"
                         "redirect_uri must use https outside localhost"
                         "redirect_uri"
                         "Use HTTPS callback URLs in non-local environments.")
                      errors in
                  let errors :=
                    check (host_truthy (hostname b)
                           && host_truthy (hostname r)
                           && host_ne (hostname b) (hostname r))
                      (err "DOMAIN_MISMATCH"
                         "redirect_uri host does not match backend host"
                         "redirect_uri"
                         "Point redirect_uri to backend callback domain, not frontend domain.")
                      errors in
                  let errors :=
                    check (negb (contains "/callback" (url_path r)))
                      (err "UNEXPECTED_PATH"
                         "redirect_uri path should include callback endpoint"
                         "redirect_uri"
                         "Use a provider callback path such as /auth/{provider}/callback.")
                      errors in
                  match errors with
                  | _ :: _ =>
                      Emit (mk_envelope false tool_name errors [] []) 1
                  | [] =>
                      Emit (mk_envelope true tool_name [] []
                              [("backend_host", host_json (hostname b));
                               ("redirect_host", host_json (hostname r));
                               ("redirect_path", JStr (url_path r));
                               ("action", JStr "redirect-uri-valid")]) 0
                  end
              end
          end
      end
  | _ => Crash AttributeError
  end.

End Script.
End ValidateRedirectUri.

(** ** social-auth-core/scripts/translate-provider-credentials.py *)

Module TranslateProviderCredentials.

Record requirement : Type := {
  required : list string;
  env : dict string
}.

Definition PROVIDER_REQUIREMENTS : dict requirement :=
  [("google",
    {| required := ["client_id"; "client_secret"];
       env := [("client_id", "GOOGLE_CLIENT_ID");
               ("client_secret", "GOOGLE_CLIENT_SECRET")] |});
   ("github",
    {| required := ["client_id"; "client_secret"];
       env := [("client_id", "GITHUB_CLIENT_ID");
               ("client_secret", "GITHUB_CLIENT_SECRET")] |});
   ("linkedin",
    {| required := ["client_id"; "client_secret"];
       env := [("client_id", "LINKEDIN_CLIENT_ID");
               ("client_secret", "LINKEDIN_CLIENT_SECRET")] |});
   ("apple",
    {| required := ["client_id"; "team_id"; "key_id"; "private_key"];
       env := [("client_id", "APPLE_CLIENT_ID");
               ("team_id", "APPLE_TEAM_ID");
               ("key_id", "APPLE_KEY_ID");
               ("private_key", "APPLE_PRIVATE_KEY")] |});
   ("twitter",
    {| required := ["client_id"; "client_secret"];
       env := [("client_id", "TWITTER_CLIENT_ID");
               ("client_secret", "TWITTER_CLIENT_SECRET")] |})].

Section Script.
Context {R : PyRuntime}.

Definition tool_name : string := "translate-provider-credentials".

(** [str(data.get("provider", "")).strip().lower()] *)
Definition provider_of (data : dict json) : string :=
  py_lower (py_strip (py_str (get_default data "provider" (JStr "")))).

Definition missing_credential (provider key : string) : error :=
  err "MISSING_CREDENTIAL" ("Missing required credential: " ++ key)
    ("credentials." ++ key)
    ("Provide `" ++ key ++ "` for provider `" ++ provider ++ "`.").

(** The loop over [req["required"]], on the state [(errors, mapped)].
    A subscript on a key that is not there raises KeyError. *)
Fixpoint probe (provider : string) (req : requirement) (creds : dict json)
    (keys : list string) (errors : list error) (mapped : dict string)
  : pyexc + (list error * dict string) :=
  match keys with
  | [] => inr (errors, mapped)
  | key :: keys' =>
      if negb (truthy (get creds key)) then
        probe provider req creds keys'
          (errors ++ [missing_credential provider key])%list mapped
      else
        match lookup key creds, lookup key (env req) with
        | Some v, Some name =>
            probe provider req creds keys' errors
              (dict_set name (py_str v) mapped)
        | _, _ => inl KeyError
        end
  end.

Definition main (data : json) : outcome :=
  match data with
  | JDict data =>
      let errors : list error := [] in
      let provider := provider_of data in
      let creds := get data "credentials" in
      let errors :=
        check (negb (has_key provider PROVIDER_REQUIREMENTS))
          (err "UNSUPPORTED_PROVIDER" ("Unsupported provider: " ++ provider)
             "provider"
             "Use one of: google, github, linkedin, apple, twitter.")
          errors in
      let '(errors, creds) :=
        match creds with
        | JDict creds => (errors, creds)
        | _ =>
            ((errors ++
              [err "INVALID_CREDENTIALS" "credentials must be an object"
                 "credentials"
                 "Provide provider credentials as a JSON object."])%list,
             [])
        end in
      match errors with
      | _ :: _ => Emit (mk_envelope false tool_name errors [] []) 1
      | [] =>
          match lookup provider PROVIDER_REQUIREMENTS with
          | None => Crash KeyError
          | Some req =>
              match probe provider req creds (required req) errors [] with
              | inl e => Crash e
              | inr (e :: errors', _) =>
                  Emit (mk_envelope false tool_name (e :: errors') []
                          [("provider", JStr provider)]) 1
              | inr ([], mapped) =>
                  Emit (mk_envelope true tool_name [] []
                          [("provider", JStr provider);
                           ("env_mapping",
                            JDict (map (fun kv => (fst kv, JStr (snd kv)))
                                     mapped))]) 0
              end
          end
      end
  | _ => Crash AttributeError
  end.

End Script.
End TranslateProviderCredentials.

(** ** social-auth-core/scripts/validate-output-schema.py *)

Module ValidateOutputSchema.

Definition REQUIRED_ROOT : list string :=
  ["summary"; "artifacts"; "next_actions"; "machine_json"].
Definition REQUIRED_MACHINE : list string :=
  ["decisions"; "risks"; "required_inputs"; "validation_results"].

Section Script.
Context {R : PyRuntime}.

Definition tool_name : string := "validate-output-schema".

(** [for idx, item in enumerate(results)] from index [idx] on *)
Fixpoint check_items (items : list json) (idx : nat) (errors : list error)
  : list error :=
  match items with
  | [] => errors
  | item :: items' =>
      let at_idx :=
        "machine_json.validation_results[" ++ str_of_nat idx ++ "]" in
      match item with
      | JDict item =>
          check_items items' (S idx)
            (check (negb (has_key "name" item) || negb (has_key "ok" item))
               (err "MISSING_FIELD"
                  "validation_results item requires name and ok" at_idx
                  "Add `name` and `ok` fields.")
               errors)
      | _ =>
          check_items items' (S idx)
            (errors ++
             [err "INVALID_ITEM" "validation_results item must be object"
                at_idx "Use object with name and ok fields."])%list
      end
  end.

Definition main (data : json) : outcome :=
  match data with
  | JDict data =>
      let errors : list error := [] in
      let errors :=
        fold_left
          (fun errors key =>
             check (negb (has_key key data))
               (err "MISSING_FIELD" ("Missing root field: " ++ key) key
                  ("Add `" ++ key ++ "` to output."))
               errors)
          REQUIRED_ROOT errors in
      let machine := get data "machine_json" in
      let '(errors, machine) :=
        match machine with
        | JDict machine => (errors, machine)
        | _ =>
            ((errors ++
              [err "INVALID_TYPE" "machine_json must be an object"
                 "machine_json" "Set machine_json to an object."])%list,
             [])
        end in
      let errors :=
        fold_left
          (fun errors key =>
             check (negb (has_key key machine))
               (err "MISSING_FIELD" ("machine_json missing: " ++ key)
                  ("machine_json." ++ key)
                  ("Add `machine_json." ++ key ++ "` to output."))
               errors)
          REQUIRED_MACHINE errors in
      let errors :=
        check (match get data "summary" with
               | JStr summary => py_strip summary =? ""
               | _ => false
               end)
          (err "EMPTY_SUMMARY" "summary must be non-empty" "summary"
             "Provide a concise summary sentence.")
          errors in
      let errors :=
        fold_left
          (fun errors arr_key =>
             let arr := get data arr_key in
             check (negb (is_None arr) && negb (is_list arr))
               (err "INVALID_TYPE" (arr_key ++ " must be an array") arr_key
                  ("Set `" ++ arr_key ++ "` to an array of strings."))
               errors)
          ["artifacts"; "next_actions"] errors in
      (* [machine] is a dict here, so the conditional takes its first arm *)
      let results := get machine "validation_results" in
      let errors :=
        match results with
        | JNull => errors
        | JList results => check_items results 0 errors
        | _ =>
            (errors ++
             [err "INVALID_TYPE" "validation_results must be an array"
                "machine_json.validation_results"
                "Provide array of {name, ok, details?}."])%list
        end in
      match errors with
      | _ :: _ =>
          Emit (mk_envelope false tool_name errors []
                  [("action", JStr "fix-output")]) 1
      | [] =>
          Emit (mk_envelope true tool_name [] []
                  [("action", JStr "schema-valid")]) 0
      end
  | _ => Crash (in_then_get_exc data)
  end.

End Script.
End ValidateOutputSchema.

(** ** A reference runtime: CPython on ASCII text

    The closed examples of this file are evaluated in this runtime.  It
    follows CPython 3.11 on values whose text is ASCII: [str.strip],
    [str.lower], [str] and [repr] (a float prints the shortest decimal
    that reads back as the same binary64 number), [json.dumps] with
    [indent=2], and [urlparse] as [urllib.parse] splits a URL (a bracketed
    host is taken as it stands, without the check that it is an IPv6
    literal).  Text outside ASCII needs the Unicode tables, which are not
    described here; the general theorems hold for every [PyRuntime]. *)

Module AsciiRuntime.

(** [c.isspace()] *)
Definition is_space (c : ascii) : bool :=
  let n := nat_of_ascii c in
  ((9 <=? n) && (n <=? 13) || (28 <=? n) && (n <=? 32))%nat.

Fixpoint lstrip (s : string) : string :=
  match s with
  | String c s' => if is_space c then lstrip s' else s
  | EmptyString => EmptyString
  end.

Fixpoint rstrip (s : string) : string :=
  match s with
  | String c s' =>
      match rstrip s' with
      | EmptyString => if is_space c then EmptyString else String c EmptyString
      | t => String c t
      end
  | EmptyString => EmptyString
  end.

Definition strip (s : string) : string := rstrip (lstrip s).

Definition lower_char (c : ascii) : ascii :=
  let n := nat_of_ascii c in
  if ((65 <=? n) && (n <=? 90))%nat then ascii_of_nat (n + 32) else c.

Fixpoint lower (s : string) : string :=
  match s with
  | String c s' => String (lower_char c) (lower s')
  | EmptyString => EmptyString
  end.

(** [c in s] for a character *)
Fixpoint has_char (c : ascii) (s : string) : bool :=
  match s with
  | String c' s' => Ascii.eqb c c' || has_char c s'
  | EmptyString => false
  end.

Definition hex_digit (n : nat) : ascii :=
  match String.get n "0123456789abcdef" with Some c => c | None => "0"%char end.

(** [repr(s)] of ASCII text: single quotes unless only they occur in [s]. *)
Definition repr_str (s : string) : string :=
  let dq := "034"%char in
  let sq := "'"%char in
  let bs := "\"%char in
  let quote := if has_char sq s && negb (has_char dq s) then dq else sq in
  let esc :=
    fix esc (s : string) : string :=
      match s with
      | EmptyString => EmptyString
      | String c s' =>
          let n := nat_of_ascii c in
          (if Ascii.eqb c quote || Ascii.eqb c bs then String bs (String c "")
           else if Ascii.eqb c "009" then String bs "t"
           else if Ascii.eqb c "010" then String bs "n"
           else if Ascii.eqb c "013" then String bs "r"
           else if ((n <? 32) || (n =? 127))%nat then
             String bs (String "x" (String (hex_digit (n / 16))
                                      (String (hex_digit (n mod 16)) "")))
           else String c "")
          ++ esc s'
      end in
  String quote (esc s ++ String quote "").

(** [str(n)] of an int *)
Definition dec (n : Z) : string := NilZero.string_of_int (Z.to_int n).

(** The text without its trailing zeros. *)
Fixpoint strip_zeros (s : string) : string :=
  match s with
  | EmptyString => EmptyString
  | String c s' =>
      match strip_zeros s' with
      | EmptyString =>
          if Ascii.eqb c "0" then EmptyString else String c EmptyString
      | t => String c t
      end
  end.

Fixpoint zeros (n : nat) : string :=
  match n with O => EmptyString | S n' => String "0" (zeros n') end.

(** Position of the decimal point of the positive rational [num / den]:
    the [p] with [10^(p-1) <= num/den < 10^p]. *)
Fixpoint below_one (fuel : nat) (num den : Z) (p : Z) : Z :=
  match fuel with
  | O => p
  | S fuel' =>
      if (den <=? num * 10)%Z then p
      else below_one fuel' (num * 10) den (p - 1)
  end.

Definition decpt_of (num den : Z) : Z :=
  if (den <=? num)%Z then Z.of_nat (String.length (dec (num / den)))
  else below_one 400 num den 0.

(** The digits [d] and exponent [q] of the shortest decimal [d * 10^q]
    that reads back as the binary64 float [m * 2^e], the nearest one when
    several are as short.  It is searched with [n = 1, 2, ...] digits
    between the midpoints [lo] and [hi] to the neighbouring floats, counted
    in units of [2^(e-2)]; the midpoints themselves read back as [m * 2^e]
    when [m] is even. *)
Fixpoint shortest (fuel : nat) (n : Z) (m e p : Z) : Z * Z :=
  let k := e - 2 in
  let q := p - n in
  let n0 := 2 ^ Z.max k 0 * 10 ^ Z.max (- q) 0 in
  let d0 := 2 ^ Z.max (- k) 0 * 10 ^ Z.max q 0 in
  let lo :=
    if ((m =? 2 ^ 52) && (-1074 <? e))%Z then 4 * m - 1 else 4 * m - 2 in
  let hi := 4 * m + 2 in
  let a := 4 * m * n0 in
  let inside (d : Z) : bool :=
    if Z.even m then ((lo * n0 <=? d * d0) && (d * d0 <=? hi * n0))%Z
    else ((lo * n0 <? d * d0) && (d * d0 <? hi * n0))%Z in
  let down := a / d0 in
  let up := down + 1 in
  let r := 2 * (a mod d0) in
  let nearest :=
    if (r <? d0)%Z then down
    else if (d0 <? r)%Z then up
    else if Z.even down then down else up in
  match fuel with
  | O => (nearest, q)
  | S fuel' =>
      if inside nearest then (nearest, q)
      else if inside down then (down, q)
      else if inside up then (up, q)
      else shortest fuel' (n + 1) m e p
  end.

Definition float_digits (m e : Z) : string * Z :=
  let p :=
    if (0 <=? e)%Z then decpt_of (m * 2 ^ e) 1 else decpt_of m (2 ^ (- e)) in
  let '(d, q) := shortest 16 1 m e p in
  let ds := dec d in
  (strip_zeros ds, q + Z.of_nat (String.length ds)).

(** [repr(x)] of a float *)
Definition float_repr (f : spec_float) : string :=
  match f with
  | S754_nan => "nan"
  | S754_infinity s => if s then "-inf" else "inf"
  | S754_zero s => if s then "-0.0" else "0.0"
  | S754_finite s m e =>
      let '(ds, decpt) := float_digits (Z.pos m) e in
      let n := Z.of_nat (String.length ds) in
      (if s then "-" else "")
      ++ (if ((decpt <=? -4) || (16 <? decpt))%Z then
            let ex := decpt - 1 in
            let ax := dec (Z.abs ex) in
            substring 0 1 ds
            ++ (if (1 <? n)%Z then "." ++ substring 1 (String.length ds) ds
                else "")
            ++ "e" ++ (if (ex <? 0)%Z then "-" else "+")
            ++ (if (Z.abs ex <? 10)%Z then "0" else "") ++ ax
          else if (decpt <=? 0)%Z then
            "0." ++ zeros (Z.to_nat (- decpt)) ++ ds
          else if (n <=? decpt)%Z then
            ds ++ zeros (Z.to_nat (decpt - n)) ++ ".0"
          else
            substring 0 (Z.to_nat decpt) ds ++ "."
            ++ substring (Z.to_nat decpt) (String.length ds) ds)
  end.

(** [repr(v)] *)
Fixpoint repr (v : json) : string :=
  match v with
  | JNull => "None"
  | JBool true => "True"
  | JBool false => "False"
  | JInt n => dec n
  | JFloat f => float_repr f
  | JStr s => repr_str s
  | JList l => "[" ++ String.concat ", " (map repr l) ++ "]"
  | JDict d =>
      "{" ++ String.concat ", "
               (map (fun kv => repr_str (fst kv) ++ ": " ++ repr (snd kv)) d)
      ++ "}"
  end.

(** [str(v)]: the text itself for a str, [repr(v)] otherwise. *)
Definition str (v : json) : string :=
  match v with
  | JStr s => s
  | _ => repr v
  end.

(** A str as [json.dumps] writes it, [ensure_ascii] on. *)
Definition dumps_str (s : string) : string :=
  let dq := "034"%char in
  let bs := "\"%char in
  let esc :=
    fix esc (s : string) : string :=
      match s with
      | EmptyString => EmptyString
      | String c s' =>
          let n := nat_of_ascii c in
          (if Ascii.eqb c dq || Ascii.eqb c bs then String bs (String c "")
           else if Ascii.eqb c "010" then String bs "n"
           else if Ascii.eqb c "013" then String bs "r"
           else if Ascii.eqb c "009" then String bs "t"
           else if Ascii.eqb c "008" then String bs "b"
           else if Ascii.eqb c "012" then String bs "f"
           else if ((n <? 32) || (n =? 127))%nat then
             String bs ("u00" ++ String (hex_digit (n / 16))
                                   (String (hex_digit (n mod 16)) ""))
           else String c "")
          ++ esc s'
      end in
  String dq (esc s ++ String dq "").

Fixpoint spaces (n : nat) : string :=
  match n with O => EmptyString | S n' => String " " (spaces n') end.

(** A line break and the indentation of nesting depth [level]. *)
Definition newline_indent (level : nat) : string :=
  String "010"%char (spaces (2 * level)).

(** [json.dumps(v, indent=2)] from nesting depth [level] *)
Fixpoint dumps_at (level : nat) (v : json) : string :=
  match v with
  | JNull => "null"
  | JBool true => "true"
  | JBool false => "false"
  | JInt n => dec n
  | JFloat S754_nan => "NaN"
  | JFloat (S754_infinity false) => "Infinity"
  | JFloat (S754_infinity true) => "-Infinity"
  | JFloat f => float_repr f
  | JStr s => dumps_str s
  | JList [] => "[]"
  | JList l =>
      "[" ++ newline_indent (S level)
      ++ String.concat ("," ++ newline_indent (S level))
           (map (dumps_at (S level)) l)
      ++ newline_indent level ++ "]"
  | JDict [] => "{}"
  | JDict d =>
      "{" ++ newline_indent (S level)
      ++ String.concat ("," ++ newline_indent (S level))
           (map (fun kv => dumps_str (fst kv) ++ ": "
                           ++ dumps_at (S level) (snd kv)) d)
      ++ newline_indent level ++ "}"
  end.

Definition dumps (v : json) : string := dumps_at 0 v.

(** [s.partition(c)]: the text before the first [c] and, when there is
    one, the text after it. *)
Fixpoint partition (c : ascii) (s : string) : string * option string :=
  match s with
  | EmptyString => (EmptyString, None)
  | String c' s' =>
      if Ascii.eqb c c' then (EmptyString, Some s')
      else let '(a, b) := partition c s' in (String c' a, b)
  end.

(** [s.rpartition(c)[2]]: the text after the last [c], or [s]. *)
Fixpoint after_last (c : ascii) (s : string) : string :=
  match s with
  | EmptyString => EmptyString
  | String c' s' =>
      if has_char c s' then after_last c s'
      else if Ascii.eqb c c' then s' else s
  end.

(** [s.replace(c, "")] *)
Fixpoint remove_char (c : ascii) (s : string) : string :=
  match s with
  | EmptyString => EmptyString
  | String c' s' =>
      if Ascii.eqb c c' then remove_char c s' else String c' (remove_char c s')
  end.

Definition scheme_chars : string :=
  "abcdefghijklmnopqrstuvwxyzABCDEFGHIJKLMNOPQRSTUVWXYZ0123456789+-.".

Fixpoint all_in (chars s : string) : bool :=
  match s with
  | String c s' => has_char c chars && all_in chars s'
  | EmptyString => true
  end.

(** [_splitnetloc(url, 0)]: cut at the first of [/], [?], [#]. *)
Fixpoint splitnetloc (url : string) : string * string :=
  match url with
  | EmptyString => (EmptyString, EmptyString)
  | String c url' =>
      if has_char c "/?#" then (EmptyString, url)
      else let '(n, rest) := splitnetloc url' in (String c n, rest)
  end.

Record SplitResult : Type := {
  sr_scheme : string;
  sr_netloc : string;
  sr_path : string;
  sr_query : string;
  sr_fragment : string
}.

Definition is_alpha (c : ascii) : bool :=
  let n := nat_of_ascii c in
  ((65 <=? n) && (n <=? 90) || (97 <=? n) && (n <=? 122))%nat.

(** [url.lstrip(_WHATWG_C0_CONTROL_OR_SPACE)] *)
Fixpoint lstrip_c0 (s : string) : string :=
  match s with
  | String c s' => if (nat_of_ascii c <=? 32)%nat then lstrip_c0 s' else s
  | EmptyString => EmptyString
  end.

Definition urlsplit (url : string) : option SplitResult :=
  let url := lstrip_c0 url in
  let url := remove_char "010"%char
               (remove_char "013"%char (remove_char "009"%char url)) in
  let '(scheme, url) :=
    match partition ":" url with
    | (String c0 cs as before, Some rest) =>
        if is_alpha c0 && all_in scheme_chars before
        then (lower before, rest)
        else (EmptyString, url)
    | _ => (EmptyString, url)
    end in
  let '(netloc, url) :=
    match url with
    | String "/" (String "/" rest) => splitnetloc rest
    | _ => (EmptyString, url)
    end in
  if has_char "[" netloc && negb (has_char "]" netloc)
     || has_char "]" netloc && negb (has_char "[" netloc)
  then None
  else
    let '(url, fragment) :=
      match partition "#" url with
      | (a, Some b) => (a, b)
      | (a, None) => (a, EmptyString)
      end in
    let '(url, query) :=
      match partition "?" url with
      | (a, Some b) => (a, b)
      | (a, None) => (a, EmptyString)
      end in
    Some {| sr_scheme := scheme; sr_netloc := netloc; sr_path := url;
            sr_query := query; sr_fragment := fragment |}.

Definition uses_params : list string :=
  [""; "ftp"; "hdl"; "prospero"; "http"; "imap"; "https"; "shttp"; "rtsp";
   "rtspu"; "sip"; "sips"; "mms"; "sftp"; "tel"].

(** [_splitparams(url)[0]]: the path without the parameters of its last
    segment. *)
Fixpoint splitparams (url : string) : string :=
  match url with
  | EmptyString => EmptyString
  | String c url' =>
      if has_char "/" url' then String c (splitparams url')
      else if Ascii.eqb c "/" then String c (fst (partition ";" url'))
      else fst (partition ";" url)
  end.

(** The [hostname] property. *)
Definition hostname_of (netloc : string) : option string :=
  let hostinfo := after_last "@" netloc in
  let host :=
    match partition "[" hostinfo with
    | (_, Some bracketed) => fst (partition "]" bracketed)
    | (_, None) => fst (partition ":" hostinfo)
    end in
  match host with
  | EmptyString => None
  | _ =>
      let '(h, zone) := partition "%" host in
      Some (lower h ++ match zone with
                       | Some z => String "%" z
                       | None => EmptyString
                       end)
  end.

Definition parse (url : string) : option ParseResult :=
  match urlsplit url with
  | None => None
  | Some sr =>
      let path :=
        if existsb (String.eqb (sr_scheme sr)) uses_params
           && has_char ";" (sr_path sr)
        then splitparams (sr_path sr) else sr_path sr in
      Some {| scheme := sr_scheme sr;
              hostname := hostname_of (sr_netloc sr);
              url_path := path |}
  end.

End AsciiRuntime.

#[export] Instance ascii_runtime : PyRuntime := {|
  py_str := AsciiRuntime.str;
  py_strip := AsciiRuntime.strip;
  py_lower := AsciiRuntime.lower;
  urlparse := AsciiRuntime.parse;
  json_dumps := AsciiRuntime.dumps
|}.

(** A process whose sets iterate in the order they were written. *)
Definition process0 : process := {| set_iter := fun S => S |}.

(** ** The seven validators as one command-line surface *)

Inductive validator : Type :=
| translate_provider_credentials
| validate_output_schema
| validate_redirect_uri
| check_webhook_signature_mode
| validate_verify_response
| check_webhook_contract
| validate_payment_contract.

(** One run of a validator: process [p] on the loaded document. *)
Definition run {R : PyRuntime} (p : process) (v : validator) (data : json)
  : outcome :=
  match v with
  | translate_provider_credentials => TranslateProviderCredentials.main data
  | validate_output_schema => ValidateOutputSchema.main data
  | validate_redirect_uri => ValidateRedirectUri.main data
  | check_webhook_signature_mode => CheckWebhookSignatureMode.main p data
  | validate_verify_response => ValidateVerifyResponse.main data
  | check_webhook_contract => CheckWebhookContract.main data
  | validate_payment_contract => ValidatePaymentContract.main data
  end.

(** The envelope lists an error with code [c]. *)
Definition has_code (c : string) (env : envelope) : Prop :=
  Exists (fun e => code e = c) (errors env).

(** The reporter's contract on one outcome: [ok] exactly when no error is
    listed, status 0 exactly when [ok], status 1 otherwise. *)
Definition consistent (o : outcome) : Prop :=
  match o with
  | Emit env c =>
      (ok env = true <-> errors env = [])
      /\ (c = 0 <-> ok env = true)
      /\ (c = 1 <-> ok env = false)
  | Crash _ => True
  end.

(** A process whose sets iterate in reverse. *)
Definition process_rev : process := {| set_iter := @rev string |}.

(** ** Notions used in the statements *)

(** The run printed an envelope. *)
Definition emits (o : outcome) : Prop := exists env c, o = Emit env c.

(** The "already paid" no-op: status 0, [ok], [result.idempotent] true. *)
Definition idempotent_success (o : outcome) : Prop :=
  exists env,
    o = Emit env 0 /\ ok env = true
    /\ lookup "idempotent" (result env) = Some (JBool true).

(** [headers] is an object with a truthy [x-flutterwave-signature]. *)
Definition hmac_signature_present (data : dict json) : bool :=
  match get data "headers" with
  | JDict headers => truthy (get headers "x-flutterwave-signature")
  | _ => false
  end.

Definition invalid_credentials : error :=
  err "INVALID_CREDENTIALS" "credentials must be an object" "credentials"
    "Provide provider credentials as a JSON object.".

(** The envelope of the run lists INVALID_CREDENTIALS and one
    MISSING_CREDENTIAL per required key of the provider. *)
Definition reports_every_missing_credential {R : PyRuntime}
    (data : dict json) : Prop :=
  exists env c req,
    TranslateProviderCredentials.main (JDict data) = Emit env c
    /\ lookup (TranslateProviderCredentials.provider_of data)
         TranslateProviderCredentials.PROVIDER_REQUIREMENTS = Some req
    /\ In invalid_credentials (errors env)
    /\ forall key,
         In key (TranslateProviderCredentials.required req) ->
         In (TranslateProviderCredentials.missing_credential
               (TranslateProviderCredentials.provider_of data) key)
            (errors env).

(** The reading under which credentials that are not an object are
    defaulted to an empty object and still probed, key by key. *)
Definition probes_defaulted_credentials {R : PyRuntime} (data : dict json)
  : Prop :=
  has_key (TranslateProviderCredentials.provider_of data)
    TranslateProviderCredentials.PROVIDER_REQUIREMENTS = true ->
  has_key "credentials" data = true ->
  is_dict (get data "credentials") = false ->
  reports_every_missing_credential data.

(** The reading under which validate-verify-response reports every
    mismatch: whenever the order is not paid and the two references are
    different strs (or the two amounts different ints), the envelope lists
    the mismatch. *)
Definition mismatch_always_reported {R : PyRuntime} (data : dict json)
  : Prop :=
  forall payload : dict json,
    get data "order_status" <> JStr "paid" ->
    lookup "verify_payload" data = Some (JDict payload) ->
    (forall expected actual : string,
        get data "expected_tx_ref" = JStr expected ->
        get payload "tx_ref" = JStr actual ->
        actual <> expected ->
        exists env c,
          ValidateVerifyResponse.main (JDict data) = Emit env c
          /\ has_code "TX_REF_MISMATCH" env)
    /\ (forall expected actual : Z,
           get data "expected_amount" = JInt expected ->
           get payload "amount" = JInt actual ->
           actual <> expected ->
           exists env c,
             ValidateVerifyResponse.main (JDict data) = Emit env c
             /\ has_code "AMOUNT_MISMATCH" env).

(** A table entry names an environment variable for each required key,
    a different one for different keys. *)
Definition requirement_ok (req : TranslateProviderCredentials.requirement)
  : bool :=
  let env := TranslateProviderCredentials.env req in
  let required := TranslateProviderCredentials.required req in
  forallb
    (fun k =>
       has_key k env
       && forallb
            (fun k' =>
               (k' =? k)
               || negb match lookup k' env, lookup k env with
                       | Some a, Some b => a =? b
                       | _, _ => false
                       end)
            required)
    required.

(** An error that does not concern the [summary] field. *)
Definition not_about_summary (e : error) : Prop :=
  path e <> "summary" /\ code e <> "EMPTY_SUMMARY".

(** ** Documents the closed examples run on *)

Definition paid_order : dict json := [("order_status", JStr "paid")].

Definition credentials_as_text : dict json :=
  [("provider", JStr "google"); ("credentials", JStr "client_id=a")].

Definition pending_payload : dict json :=
  [("status", JStr "success-pending-validation");
   ("tx_ref", JStr "order-2002"); ("amount", JInt 9000)].

Definition pending_mismatch : dict json :=
  [("expected_tx_ref", JStr "order-1001");
   ("expected_amount", JInt 5000);
   ("verify_payload", JDict pending_payload)].

Definition settled_payload : dict json :=
  [("status", JStr "successful");
   ("tx_ref", JStr "order-2002"); ("amount", JInt 9000)].

Definition settled_mismatch : dict json :=
  [("expected_tx_ref", JStr "order-1001");
   ("expected_amount", JInt 5000);
   ("verify_payload", JDict settled_payload)].

Definition contract_payload : dict json :=
  [("status", JStr "success"); ("reference", JStr "ref_1");
   ("amount", JInt 5000)].

Definition contract_success : dict json :=
  [("expected_reference", JStr "ref_1");
   ("expected_amount_kobo", JInt 5000);
   ("verify_payload", JDict contract_payload)].

Definition google_callback : json :=
  JDict [("backend_base_url", JStr "https://api.x.com");
         ("redirect_uri", JStr "https://api.x.com/auth/google/callback")].

Definition hmac_signed : dict json :=
  [("signature_mode", JStr "hmac-sha256");
   ("raw_body_enabled", JBool true);
   ("headers", JDict [("x-flutterwave-signature", JStr "3f9a")])].

Definition bad_mode_input : json := JDict [("signature_mode", JStr "sha1")].

Definition apple_credentials : dict json :=
  [("client_id", JInt 0); ("team_id", JStr "T1"); ("key_id", JStr "K1");
   ("private_key", JStr "pem")].

Definition apple_zero_client_id : dict json :=
  [("provider", JStr "Apple"); ("credentials", JDict apple_credentials)].

Definition numeric_summary : dict json :=
  [("summary", JInt 42); ("artifacts", JList []); ("next_actions", JList []);
   ("machine_json",
    JDict [("decisions", JList []); ("risks", JList []);
           ("required_inputs", JList []); ("validation_results", JList [])])].

(** ** What each validator reads, accepts and reports *)

(** The keys of the input object a validator looks at. *)
Definition reads (v : validator) : list string :=
  match v with
  | translate_provider_credentials => ["provider"; "credentials"]
  | validate_output_schema =>
      ["summary"; "artifacts"; "next_actions"; "machine_json"]
  | validate_redirect_uri => ["backend_base_url"; "redirect_uri"]
  | check_webhook_signature_mode =>
      ["signature_mode"; "headers"; "raw_body_enabled"]
  | validate_verify_response =>
      ["expected_tx_ref"; "expected_amount"; "verify_payload"; "order_status"]
  | check_webhook_contract =>
      ["raw_body_enabled"; "signature_header_name"; "headers";
       "order_status"; "expected_reference"; "event_reference";
       "expected_amount_kobo"; "event_amount_kobo"]
  | validate_payment_contract =>
      ["expected_reference"; "expected_amount_kobo"; "verify_payload";
       "order_status"]
  end.

(** Two input objects that bind the keys [ks] alike. *)
Definition agree_on (ks : list string) (d1 d2 : dict json) : Prop :=
  forall k, In k ks -> lookup k d1 = lookup k d2.

(** The run ended in an uncaught exception. *)
Definition crashes (o : outcome) : Prop := exists e, o = Crash e.

Definition missing_backend_base_url : error :=
  err "MISSING_FIELD" "Missing backend_base_url" "backend_base_url"
    "Provide backend_base_url (e.g., https://api.example.com).".

Definition missing_redirect_uri : error :=
  err "MISSING_FIELD" "Missing redirect_uri" "redirect_uri"
    "Provide redirect_uri exactly as configured with provider.".

(** The await-webhook envelope of validate-verify-response. *)
Definition await_webhook : outcome :=
  Emit (mk_envelope true ValidateVerifyResponse.tool_name []
          ["await webhook confirmation before fulfillment"]
          [("action", JStr "await-webhook"); ("settled", JBool false)]) 0.

(** The same document with one more key, which no validator reads. *)
Definition with_note (d : dict json) : dict json :=
  (d ++ [("note", JStr "retry 2")])%list.

(** A redirect URI on which [urlparse] raises: the bracket of the IPv6
    host is not closed. *)
Definition unclosed_bracket : dict json :=
  [("backend_base_url", JStr "https://api.x.com");
   ("redirect_uri", JStr "https://[::1/callback")].

(** A signature mode that cannot be hashed. *)
Definition mode_as_list : dict json :=
  [("signature_mode", JList [JStr "verif-hash"]);
   ("headers", JDict [("verif-hash", JStr "s3cret")])].

Definition only_backend : dict json :=
  [("backend_base_url", JStr "https://api.x.com"); ("redirect_uri", JStr "")].

(** A pending verification with nothing to compare it to. *)
Definition pending_without_expectations : dict json :=
  [("verify_payload", JDict [("status", JStr "success-pending-validation")])].

(** What validate-redirect-uri accepts, on the parsed URLs: the backend
    has an http or https scheme; the redirect is https, or http on
    localhost or 127.0.0.1; the two hosts are the same when both URLs have
    one; the redirect path contains "/callback". *)
Definition redirect_acceptable (b r : ParseResult) : Prop :=
  (scheme b = "http" \/ scheme b = "https")
  /\ (scheme r = "https"
      \/ (scheme r = "http"
          /\ (hostname r = Some "localhost"
              \/ hostname r = Some "127.0.0.1")))
  /\ (hostname b = hostname r
      \/ ValidateRedirectUri.host_truthy (hostname b) = false
      \/ ValidateRedirectUri.host_truthy (hostname r) = false)
  /\ contains "/callback" (url_path r) = true.

(** A callback on localhost over http; [urlparse] lowers the host. *)
Definition local_callback : dict json :=
  [("backend_base_url", JStr "http://localhost:3000");
   ("redirect_uri", JStr "http://LOCALHOST:3000/auth/github/callback")].

Definition unsupported_provider (provider : string) : error :=
  err "UNSUPPORTED_PROVIDER" ("Unsupported provider: " ++ provider) "provider"
    "Use one of: google, github, linkedin, apple, twitter.".

(** The required keys of [req] that [creds] leaves out or binds to a falsy
    value, in the order of the table. *)
Definition missing_keys (req : TranslateProviderCredentials.requirement)
    (creds : dict json) : list string :=
  filter (fun k => negb (truthy (get creds k)))
    (TranslateProviderCredentials.required req).

(** [req["env"][k]] for a key the table knows. *)
Definition env_name (req : TranslateProviderCredentials.requirement)
    (k : string) : string :=
  match lookup k (TranslateProviderCredentials.env req) with
  | Some name => name
  | None => k
  end.

(** The environment mapping of a complete set of credentials: one entry
    per required key, in the order of the table. *)
Definition env_mapping_of {R : PyRuntime}
    (req : TranslateProviderCredentials.requirement) (creds : dict json)
  : dict json :=
  map (fun k => (env_name req k, JStr (py_str (get creds k))))
    (TranslateProviderCredentials.required req).

(** Credentials in another order than the table, with a number and with
    a key the provider does not require. *)
Definition github_credentials : dict json :=
  [("client_secret", JStr "s3cr3t"); ("client_id", JInt 4211);
   ("scope", JStr "repo")].

Definition github_login : dict json :=
  [("provider", JStr " GitHub "); ("credentials", JDict github_credentials)].

Definition gitlab_login : dict json :=
  [("provider", JStr "gitlab"); ("credentials", JNull)].

(** The value of an int; a bool counts as 0 or 1. *)
Definition int_value (v : json) : option Z :=
  match v with
  | JInt n => Some n
  | JBool b => Some (Z_of_bool b)
  | _ => None
  end.

(** [actual] does not contradict [expected]: when both are strs they are
    the same str, when both are ints the same int.  Values of other types
    are not compared. *)
Definition same_if_str (expected actual : json) : Prop :=
  forall s t, expected = JStr s -> actual = JStr t -> t = s.

Definition same_if_int (expected actual : json) : Prop :=
  forall m n, int_value expected = Some m -> int_value actual = Some n ->
              n = m.

(** What validate-payment-contract fulfils: both expectations and the
    three payload fields are there, the status is "success", and neither
    comparison finds a difference. *)
Definition payment_verified (data : dict json) : Prop :=
  exists payload,
    lookup "verify_payload" data = Some (JDict payload)
    /\ has_key "expected_reference" data = true
    /\ has_key "expected_amount_kobo" data = true
    /\ has_key "status" payload = true
    /\ has_key "reference" payload = true
    /\ has_key "amount" payload = true
    /\ get payload "status" = JStr "success"
    /\ same_if_str (get data "expected_reference") (get payload "reference")
    /\ same_if_int (get data "expected_amount_kobo") (get payload "amount").

(** What validate-verify-response answers without an error: the payment
    is still pending, or it is settled and agrees with the order. *)
Definition verify_pending (data : dict json) : Prop :=
  exists payload,
    lookup "verify_payload" data = Some (JDict payload)
    /\ get payload "status" = JStr "success-pending-validation".

Definition verify_settled (data : dict json) : Prop :=
  exists payload,
    lookup "verify_payload" data = Some (JDict payload)
    /\ has_key "expected_tx_ref" data = true
    /\ has_key "expected_amount" data = true
    /\ has_key "status" payload = true
    /\ has_key "tx_ref" payload = true
    /\ has_key "amount" payload = true
    /\ get payload "status" = JStr "successful"
    /\ same_if_str (get data "expected_tx_ref") (get payload "tx_ref")
    /\ same_if_int (get data "expected_amount") (get payload "amount").


(** What check-webhook-signature-mode lets through. *)
Definition signature_checked (data : dict json) : Prop :=
  exists headers,
    get data "headers" = JDict headers
    /\ ((get data "signature_mode" = JStr "verif-hash"
         /\ truthy (get headers "verif-hash") = true)
        \/ (get data "signature_mode" = JStr "hmac-sha256"
            /\ get data "raw_body_enabled" = JBool true
            /\ truthy (get headers "x-flutterwave-signature") = true)).

(** An entry of [validation_results] that passes. *)
Definition item_ok (item : json) : Prop :=
  exists d, item = JDict d
            /\ has_key "name" d = true /\ has_key "ok" d = true.

(** What validate-output-schema accepts. *)
Definition schema_valid {R : PyRuntime} (data : dict json) : Prop :=
  Forall (fun k => has_key k data = true) ValidateOutputSchema.REQUIRED_ROOT
  /\ (forall s, get data "summary" = JStr s -> py_strip s <> "")
  /\ Forall (fun k => get data k = JNull \/ exists l, get data k = JList l)
       ["artifacts"; "next_actions"]
  /\ exists machine,
       get data "machine_json" = JDict machine
       /\ Forall (fun k => has_key k machine = true)
            ValidateOutputSchema.REQUIRED_MACHINE
       /\ (get machine "validation_results" = JNull
           \/ exists items,
               get machine "validation_results" = JList items
               /\ Forall item_ok items).


(** The path an error about entry [i] of [validation_results] carries. *)
Definition item_path (i : nat) : string :=
  "machine_json.validation_results[" ++ str_of_nat i ++ "]".

Definition second_item_bad : dict json :=
  [("summary", JStr "done"); ("artifacts", JList []);
   ("next_actions", JList []);
   ("machine_json",
    JDict [("decisions", JList []); ("risks", JList []);
           ("required_inputs", JList []);
           ("validation_results",
            JList [JDict [("name", JStr "lint"); ("ok", JBool true)];
                   JStr "tests passed"])])].

(** [verify_payload] as the payment validators read it: the object, or
    the empty object when the field is absent or not an object. *)
Definition payload_of (data : dict json) : dict json :=
  match get_default data "verify_payload" (JDict []) with
  | JDict payload => payload
  | _ => []
  end.

(** The two amounts a payment validator compares, expected first. *)
Definition compared_amounts (v : validator) (data : dict json)
  : option (json * json) :=
  match v with
  | validate_verify_response =>
      Some (get data "expected_amount", get (payload_of data) "amount")
  | validate_payment_contract =>
      Some (get data "expected_amount_kobo", get (payload_of data) "amount")
  | check_webhook_contract =>
      Some (get data "expected_amount_kobo", get data "event_amount_kobo")
  | _ => None
  end.

(** A verification of 4000 kobo for an order of 5000. *)
Definition underpaid_order : dict json :=
  [("expected_reference", JStr "ref_1");
   ("expected_amount_kobo", JInt 5000);
   ("verify_payload",
    JDict [("status", JStr "success"); ("reference", JStr "ref_1");
           ("amount", JInt 4000)])].

(** * Properties *)

(** ** Values and dicts *)

Lemma py_eq_JStr (v : json) (s : string) :
  py_eq v (JStr s) = true <-> v = JStr s.
Proof.
  destruct v; simpl; split; intro H; try discriminate.
  - apply String.eqb_eq in H. now subst.
  - injection H as ->. apply String.eqb_refl.
Qed.

Lemma py_eq_JStr_false (v : json) (s : string) :
  v <> JStr s -> py_eq v (JStr s) = false.
Proof.
  intro H. destruct (py_eq v (JStr s)) eqn:E; [|reflexivity].
  apply py_eq_JStr in E. contradiction.
Qed.

Lemma is_True_iff (v : json) : is_True v = true <-> v = JBool true.
Proof.
  destruct v as [|[]| | | | |]; simpl; split; intro H;
    try discriminate; reflexivity.
Qed.

(** A str never differs from itself, nor an int. *)
Lemma same_str_no_mismatch (v : json) :
  is_str v && is_str v && py_ne v v = false.
Proof.
  destruct v; try reflexivity. unfold py_ne. simpl.
  now rewrite String.eqb_refl.
Qed.

Lemma same_int_no_mismatch (v : json) :
  is_int v && is_int v && py_ne v v = false.
Proof.
  destruct v as [|b|n| | | |]; try reflexivity; unfold py_ne; simpl.
  - now destruct b.
  - now rewrite Z.eqb_refl.
Qed.

Lemma has_key_lookup {V : Type} (k : string) (d : dict V) (v : V) :
  lookup k d = Some v -> has_key k d = true.
Proof. unfold has_key. now intros ->. Qed.

Lemma get_default_lookup (k : string) (d : dict json) (v dflt : json) :
  lookup k d = Some v -> get_default d k dflt = v.
Proof. unfold get_default. now intros ->. Qed.

Lemma get_lookup (k : string) (d : dict json) (v : json) :
  lookup k d = Some v -> get d k = v.
Proof. apply get_default_lookup. Qed.

Lemma lookup_In {V : Type} (k : string) (d : dict V) (v : V) :
  lookup k d = Some v -> In (k, v) d.
Proof.
  induction d as [|[k' v'] d IH]; simpl; [discriminate|].
  destruct (String.eqb_spec k k') as [-> | Hne]; intro H.
  - injection H as ->. now left.
  - right. auto.
Qed.

Lemma lookup_dict_set_eq {V : Type} (k : string) (v : V) (d : dict V) :
  lookup k (dict_set k v d) = Some v.
Proof.
  induction d as [|[k' v'] d IH]; simpl.
  - now rewrite String.eqb_refl.
  - destruct (k =? k') eqn:E; simpl; now rewrite E.
Qed.

Lemma lookup_dict_set_ne {V : Type} (k k' : string) (v : V) (d : dict V) :
  k <> k' -> lookup k (dict_set k' v d) = lookup k d.
Proof.
  intro Hne. induction d as [|[k0 v0] d IH]; simpl.
  - apply String.eqb_neq in Hne. now rewrite Hne.
  - destruct (k' =? k0) eqn:E; simpl.
    + apply String.eqb_eq in E. subst k0.
      apply String.eqb_neq in Hne. now rewrite Hne.
    + now rewrite IH.
Qed.

Lemma lookup_remove_eq {V : Type} (k : string) (d : dict V) :
  lookup k (dict_remove k d) = None.
Proof.
  induction d as [|[k' v'] d IH]; simpl; [reflexivity|].
  destruct (k =? k') eqn:E; simpl; [assumption|]. now rewrite E.
Qed.

Lemma lookup_remove_ne {V : Type} (k k' : string) (d : dict V) :
  k' <> k -> lookup k' (dict_remove k d) = lookup k' d.
Proof.
  intro Hne. induction d as [|[k0 v0] d IH]; simpl; [reflexivity|].
  destruct (k =? k0) eqn:E; simpl.
  - apply String.eqb_eq in E. subst k0.
    apply String.eqb_neq in Hne. now rewrite Hne.
  - now rewrite IH.
Qed.

(** ** The [errors] list *)

Lemma check_app (c : bool) (e : error) (errs : list error) :
  check c e errs = (errs ++ (if c then [e] else []))%list.
Proof. destruct c; simpl; now rewrite ?app_nil_r. Qed.

Lemma In_check (c : bool) (e e' : error) (errs : list error) :
  In e errs -> In e (check c e' errs).
Proof. rewrite check_app. intro H. apply in_or_app. now left. Qed.

Lemma In_check_here (e : error) (errs : list error) :
  In e (check true e errs).
Proof. rewrite check_app. apply in_or_app. right. now left. Qed.

Lemma check_keeps (P : error -> Prop) (c : bool) (e : error)
    (errs : list error) :
  Forall P errs -> (c = true -> P e) -> Forall P (check c e errs).
Proof.
  intros H He. rewrite check_app. apply Forall_app. split; [assumption|].
  destruct c; constructor; auto.
Qed.

(** The last step of every [main]: reject when [errors] is not empty. *)
Lemma reject_when_listed (errs : list error) (e : error) (c t : string)
    (w : list string) (r : dict json) (o : outcome) :
  In e errs -> code e = c ->
  exists env,
    match errs with
    | _ :: _ => Emit (mk_envelope false t errs w r) 1
    | [] => o
    end = Emit env 1
    /\ ok env = false /\ has_code c env.
Proof.
  intros Hin Hc. destruct errs as [|e0 errs]; [contradiction|].
  eexists. repeat split. unfold has_code. simpl errors.
  apply Exists_exists. eauto.
Qed.

Lemma emitted_errors (errs : list error) (t : string) (r r' : dict json) :
  exists env c,
    match errs with
    | _ :: _ => Emit (mk_envelope false t errs [] r) 1
    | [] => Emit (mk_envelope true t [] [] r') 0
    end = Emit env c
    /\ errors env = errs.
Proof. destruct errs; do 2 eexists; split; reflexivity. Qed.

Ltac solve_has_code :=
  unfold has_code; cbn [errors];
  first [ apply Exists_cons_hd; reflexivity
        | apply Exists_cons_tl; solve_has_code ].

(** ** The "already paid" short-circuit *)

(** C1: in validate-verify-response, check-webhook-contract and
    validate-payment-contract, an input object whose [order_status] is
    "paid" gives an envelope with [ok] true and [result.idempotent] true
    (and status 0), whatever its other fields are. *)
Theorem paid_short_circuit {R : PyRuntime} (data : dict json) :
  get data "order_status" = JStr "paid" ->
  idempotent_success (ValidateVerifyResponse.main (JDict data))
  /\ idempotent_success (CheckWebhookContract.main (JDict data))
  /\ idempotent_success (ValidatePaymentContract.main (JDict data)).
Proof.
  intro H. unfold idempotent_success.
  repeat split.
  - unfold ValidateVerifyResponse.main. rewrite H.
    destruct (get_default data "verify_payload" (JDict [])); cbn;
      eexists; repeat split.
  - unfold CheckWebhookContract.main. rewrite H.
    destruct (get data "headers"); cbn; eexists; repeat split.
  - unfold ValidatePaymentContract.main. rewrite H.
    destruct (get_default data "verify_payload" (JDict [])); cbn;
      eexists; repeat split.
Qed.

Lemma paid_short_circuit_witness :
  get paid_order "order_status" = JStr "paid"
  /\ idempotent_success
       (ValidateVerifyResponse.main (R := ascii_runtime) (JDict paid_order))
  /\ idempotent_success (CheckWebhookContract.main (JDict paid_order))
  /\ idempotent_success
       (ValidatePaymentContract.main (R := ascii_runtime) (JDict paid_order)).
Proof.
  split; [reflexivity|].
  apply (paid_short_circuit (R := ascii_runtime) paid_order). reflexivity.
Defined.

(** ** The reporter's contract *)

Lemma consistent_fail (t : string) (e : error) (errs : list error)
    (w : list string) (r : dict json) :
  consistent (Emit (mk_envelope false t (e :: errs) w r) 1).
Proof. simpl. repeat split; intros; try discriminate; auto. Qed.

Lemma consistent_ok (t : string) (w : list string) (r : dict json) :
  consistent (Emit (mk_envelope true t [] w r) 0).
Proof. simpl. repeat split; intros; try discriminate; auto. Qed.

(** Walks the branches of a [main] down to its [print] statements. *)
Ltac outcome_cases :=
  cbv zeta;
  repeat match goal with
    | |- consistent (Crash _) => exact I
    | |- consistent (Emit (mk_envelope true _ [] _ _) 0) =>
        apply consistent_ok
    | |- consistent (Emit (mk_envelope false _ (_ :: _) _ _) 1) =>
        apply consistent_fail
    | |- consistent (match ?x with _ => _ end) => destruct x
    end.

Lemma run_consistent {R : PyRuntime} (p : process) (v : validator)
    (data : json) :
  consistent (run p v data).
Proof.
  destruct v; unfold run.
  - unfold TranslateProviderCredentials.main. outcome_cases.
  - unfold ValidateOutputSchema.main. outcome_cases.
  - unfold ValidateRedirectUri.main. outcome_cases.
  - unfold CheckWebhookSignatureMode.main. outcome_cases.
  - unfold ValidateVerifyResponse.main. outcome_cases.
  - unfold CheckWebhookContract.main. outcome_cases.
  - unfold ValidatePaymentContract.main. outcome_cases.
Qed.

(** C4: for every validator and every input, the emitted envelope has
    [ok] true exactly when its [errors] list is empty, and the exit status
    of the run is 0 exactly when [ok] is true and 1 exactly when it is
    false. *)
Theorem envelope_contract {R : PyRuntime} (p : process) (v : validator)
    (data : json) (env : envelope) (c : Z) :
  run p v data = Emit env c ->
  (ok env = true <-> errors env = [])
  /\ (exit_status (run p v data) = 0 <-> ok env = true)
  /\ (exit_status (run p v data) = 1 <-> ok env = false).
Proof.
  intro H. pose proof (run_consistent p v data) as C.
  rewrite H in *. exact C.
Qed.

Lemma envelope_contract_witness :
  exists env c,
    run (R := ascii_runtime) process0 check_webhook_signature_mode
      bad_mode_input = Emit env c
    /\ (ok env = true <-> errors env = [])
    /\ (exit_status
          (run (R := ascii_runtime) process0 check_webhook_signature_mode
             bad_mode_input) = 0 <-> ok env = true)
    /\ (exit_status
          (run (R := ascii_runtime) process0 check_webhook_signature_mode
             bad_mode_input) = 1 <-> ok env = false).
Proof.
  do 2 eexists. split; [reflexivity|].
  eapply (envelope_contract (R := ascii_runtime) process0
            check_webhook_signature_mode bad_mode_input).
  reflexivity.
Defined.

(** A document that is not an object stops every validator with an
    uncaught exception. *)
Lemma non_object_crashes {R : PyRuntime} (p : process) (v : validator)
    (data : json) :
  is_dict data = false -> exists e, run p v data = Crash e.
Proof.
  intro H. destruct v, data; try discriminate H; eexists; reflexivity.
Qed.

(** ** Determinism *)

Lemma process0_seeded : seeded process0.
Proof. intro S. apply Permutation_refl. Qed.

Lemma process_rev_seeded : seeded process_rev.
Proof. intro S. simpl. apply Permutation_sym, Permutation_rev. Qed.

(** Whatever order the process iterates the set in, [sorted] gives the
    same list. *)
Lemma sorted_VALID_MODES (p : process) :
  seeded p ->
  sorted (set_iter p CheckWebhookSignatureMode.VALID_MODES)
  = ["hmac-sha256"; "verif-hash"].
Proof.
  intro H. specialize (H CheckWebhookSignatureMode.VALID_MODES).
  apply Permutation_sym, Permutation_length_2_inv in H.
  destruct H as [-> | ->]; reflexivity.
Qed.

Lemma run_seed_independent {R : PyRuntime} (p1 p2 : process) (v : validator)
    (data : json) :
  seeded p1 -> seeded p2 -> run p1 v data = run p2 v data.
Proof.
  intros H1 H2. destruct v; try reflexivity.
  unfold run, CheckWebhookSignatureMode.main.
  now rewrite (sorted_VALID_MODES p1 H1), (sorted_VALID_MODES p2 H2).
Qed.

(** C8: every validator is deterministic.  Two runs on the same input
    document, in processes that may iterate their sets in different orders,
    print the same text on standard output and exit with the same
    status. *)
Theorem validators_deterministic {R : PyRuntime} (p1 p2 : process)
    (v : validator) (data : json) :
  seeded p1 -> seeded p2 ->
  stdout_text (run p1 v data) = stdout_text (run p2 v data)
  /\ exit_status (run p1 v data) = exit_status (run p2 v data).
Proof.
  intros H1 H2. now rewrite (run_seed_independent p1 p2 v data H1 H2).
Qed.

Lemma validators_deterministic_witness :
  seeded process0 /\ seeded process_rev
  /\ stdout_text (run process0 check_webhook_signature_mode bad_mode_input)
     = stdout_text
         (run process_rev check_webhook_signature_mode bad_mode_input)
  /\ exit_status (run process0 check_webhook_signature_mode bad_mode_input)
     = exit_status
         (run process_rev check_webhook_signature_mode bad_mode_input).
Proof.
  split; [exact process0_seeded |].
  split; [exact process_rev_seeded |].
  exact (validators_deterministic (R := ascii_runtime) process0 process_rev
           check_webhook_signature_mode bad_mode_input
           process0_seeded process_rev_seeded).
Defined.

(** ** check-webhook-signature-mode in hmac-sha256 mode *)

(** C7: when [signature_mode] is "hmac-sha256", the envelope has [ok] true
    exactly when [raw_body_enabled] is the boolean true and [headers] is an
    object with a truthy "x-flutterwave-signature" entry; when the first
    fails RAW_BODY_REQUIRED is listed, when the second fails
    MISSING_HMAC_HEADER is listed. *)
Theorem hmac_mode_contract {R : PyRuntime} (p : process) (data : dict json) :
  get data "signature_mode" = JStr "hmac-sha256" ->
  exists env c,
    CheckWebhookSignatureMode.main p (JDict data) = Emit env c
    /\ (ok env = true <->
        get data "raw_body_enabled" = JBool true
        /\ hmac_signature_present data = true)
    /\ (get data "raw_body_enabled" <> JBool true ->
        has_code "RAW_BODY_REQUIRED" env)
    /\ (hmac_signature_present data = false ->
        has_code "MISSING_HMAC_HEADER" env).
Proof.
  intro Hmode.
  assert (Hraw : is_True (get data "raw_body_enabled") = false ->
                 get data "raw_body_enabled" <> JBool true).
  { intros E H. apply is_True_iff in H. congruence. }
  unfold CheckWebhookSignatureMode.main, hmac_signature_present.
  rewrite Hmode. cbn [hashable negb in_strs existsb
                      CheckWebhookSignatureMode.VALID_MODES].
  change (py_eq (JStr "hmac-sha256") (JStr "verif-hash")) with false.
  change (py_eq (JStr "hmac-sha256") (JStr "hmac-sha256")) with true.
  change ("hmac-sha256" =? "verif-hash") with false.
  change ("hmac-sha256" =? "hmac-sha256") with true.
  cbn [orb negb check andb].
  destruct (is_True (get data "raw_body_enabled")) eqn:E;
    [apply is_True_iff in E | specialize (Hraw eq_refl)];
    (destruct (get data "headers") as [| | | | | |headers];
     [| | | | | |destruct (truthy (get headers "x-flutterwave-signature"))]);
    cbn; do 2 eexists; (split; [reflexivity|]); cbn [ok];
    (split; [split; [discriminate || tauto
                    | intros [? ?]; congruence]
            | split; intro; try solve_has_code; congruence]).
Qed.

Lemma hmac_mode_contract_witness :
  get hmac_signed "signature_mode" = JStr "hmac-sha256"
  /\ exists env c,
      CheckWebhookSignatureMode.main (R := ascii_runtime) process0
        (JDict hmac_signed) = Emit env c
      /\ (ok env = true <->
          get hmac_signed "raw_body_enabled" = JBool true
          /\ hmac_signature_present hmac_signed = true)
      /\ (get hmac_signed "raw_body_enabled" <> JBool true ->
          has_code "RAW_BODY_REQUIRED" env)
      /\ (hmac_signature_present hmac_signed = false ->
          has_code "MISSING_HMAC_HEADER" env).
Proof.
  split; [reflexivity|].
  apply (hmac_mode_contract (R := ascii_runtime) process0 hmac_signed).
  reflexivity.
Defined.

(** ** validate-payment-contract on a matching verification *)

(** C5: with [order_status] not "paid", the required root and
    [verify_payload] fields present, [verify_payload.reference] equal to
    [expected_reference] and [verify_payload.amount] equal to
    [expected_amount_kobo]: status "success" gives [ok] true and
    [result.action] "mark-paid"; status "pending" gives [ok] false and an
    INVALID_STATUS error. *)
Theorem payment_contract_status {R : PyRuntime} (data payload : dict json)
    (reference amount status : json) :
  get data "order_status" <> JStr "paid" ->
  lookup "expected_reference" data = Some reference ->
  lookup "expected_amount_kobo" data = Some amount ->
  lookup "verify_payload" data = Some (JDict payload) ->
  lookup "status" payload = Some status ->
  lookup "reference" payload = Some reference ->
  lookup "amount" payload = Some amount ->
  (status = JStr "success" ->
   exists env, ValidatePaymentContract.main (JDict data) = Emit env 0
               /\ ok env = true
               /\ lookup "action" (result env) = Some (JStr "mark-paid"))
  /\ (status = JStr "pending" ->
      exists env, ValidatePaymentContract.main (JDict data) = Emit env 1
                  /\ ok env = false
                  /\ has_code "INVALID_STATUS" env).
Proof.
  intros Hpaid Href Hamt Hpl Hst Hpref Hpamt.
  unfold ValidatePaymentContract.main.
  rewrite (get_default_lookup _ _ _ _ Hpl).
  cbv beta iota zeta. cbn [fold_left].
  rewrite (has_key_lookup _ _ _ Href), (has_key_lookup _ _ _ Hamt),
    (has_key_lookup _ _ _ Hpl), (has_key_lookup _ _ _ Hst),
    (has_key_lookup _ _ _ Hpref), (has_key_lookup _ _ _ Hpamt).
  rewrite (py_eq_JStr_false _ _ Hpaid).
  rewrite (get_lookup _ _ _ Href), (get_lookup _ _ _ Hamt),
    (get_lookup _ _ _ Hst), (get_lookup _ _ _ Hpref),
    (get_lookup _ _ _ Hpamt).
  rewrite same_str_no_mismatch, same_int_no_mismatch.
  split; intros ->; cbn; eexists; (split; [reflexivity|]);
    (split; [reflexivity|]); try reflexivity.
  solve_has_code.
Qed.

Lemma payment_contract_status_witness :
  get contract_success "order_status" <> JStr "paid"
  /\ exists env,
      ValidatePaymentContract.main (R := ascii_runtime)
        (JDict contract_success) = Emit env 0
      /\ ok env = true
      /\ lookup "action" (result env) = Some (JStr "mark-paid").
Proof.
  assert (H : get contract_success "order_status" <> JStr "paid")
    by (vm_compute; discriminate).
  split; [exact H|].
  exact (proj1 (payment_contract_status (R := ascii_runtime)
                  contract_success contract_payload
                  (JStr "ref_1") (JInt 5000) (JStr "success")
                  H eq_refl eq_refl eq_refl eq_refl eq_refl eq_refl)
           eq_refl).
Defined.

(** ** validate-redirect-uri on the documented callback *)

(** C6: the input with [backend_base_url] "https://api.x.com" and
    [redirect_uri] "https://api.x.com/auth/google/callback" gives [ok] true
    and [result.redirect_path] "/auth/google/callback". *)
Theorem google_callback_valid :
  exists env,
    ValidateRedirectUri.main (R := ascii_runtime) google_callback = Emit env 0
    /\ ok env = true
    /\ lookup "redirect_path" (result env)
       = Some (JStr "/auth/google/callback").
Proof. eexists. repeat split. Qed.

(** ** validate-verify-response: mismatches and the pending status *)

(** With the status "success-pending-validation" the run prints the
    await-webhook envelope, [ok] true and no error, whatever it had
    appended to [errors] before. *)
Lemma pending_status_hides_mismatch {R : PyRuntime} :
  ValidateVerifyResponse.main (JDict pending_mismatch)
  = Emit (mk_envelope true ValidateVerifyResponse.tool_name []
            ["await webhook confirmation before fulfillment"]
            [("action", JStr "await-webhook"); ("settled", JBool false)]) 0.
Proof. reflexivity. Qed.

(** C3 as stated fails: with [expected_tx_ref] "order-1001" against
    [verify_payload.tx_ref] "order-2002" and the status
    "success-pending-validation", the envelope lists no TX_REF_MISMATCH. *)
Lemma pending_mismatch_not_reported :
  ~ mismatch_always_reported (R := ascii_runtime) pending_mismatch.
Proof.
  intro Hclaim.
  assert (Hpaid : get pending_mismatch "order_status" <> JStr "paid")
    by (vm_compute; discriminate).
  destruct (Hclaim pending_payload Hpaid eq_refl) as [Href _].
  destruct (Href "order-1001" "order-2002" eq_refl eq_refl)
    as (env & c & Hmain & Hcode); [discriminate|].
  rewrite pending_status_hides_mismatch in Hmain.
  injection Hmain as <- _. inversion Hcode.
Qed.

(** C3, amended: in validate-verify-response, when [order_status] is not
    "paid" and [verify_payload.status] is not "success-pending-validation",
    an [expected_tx_ref] and a [verify_payload.tx_ref] that are different
    strs give an envelope with [ok] false that lists TX_REF_MISMATCH, and an
    [expected_amount] and a [verify_payload.amount] that are different ints
    give one that lists AMOUNT_MISMATCH; the exit status is 1. *)
Theorem mismatch_reported_unless_pending {R : PyRuntime}
    (data payload : dict json) :
  get data "order_status" <> JStr "paid" ->
  lookup "verify_payload" data = Some (JDict payload) ->
  get payload "status" <> JStr "success-pending-validation" ->
  (forall expected actual : string,
      get data "expected_tx_ref" = JStr expected ->
      get payload "tx_ref" = JStr actual ->
      actual <> expected ->
      exists env, ValidateVerifyResponse.main (JDict data) = Emit env 1
                  /\ ok env = false /\ has_code "TX_REF_MISMATCH" env)
  /\ (forall expected actual : Z,
         get data "expected_amount" = JInt expected ->
         get payload "amount" = JInt actual ->
         actual <> expected ->
         exists env, ValidateVerifyResponse.main (JDict data) = Emit env 1
                     /\ ok env = false /\ has_code "AMOUNT_MISMATCH" env).
Proof.
  intros Hpaid Hpl Hst.
  unfold ValidateVerifyResponse.main.
  rewrite (get_default_lookup _ _ _ _ Hpl). cbv beta iota zeta.
  rewrite (py_eq_JStr_false _ _ Hpaid), (py_eq_JStr_false _ _ Hst).
  split; intros expected actual Hexp Hact Hne; rewrite Hexp, Hact.
  - assert (E : py_ne (JStr actual) (JStr expected) = true).
    { unfold py_ne. simpl. apply negb_true_iff, String.eqb_neq, Hne. }
    rewrite E. cbn [is_str andb].
    eapply reject_when_listed;
      [do 2 apply In_check; apply In_check_here | reflexivity].
  - assert (E : py_ne (JInt actual) (JInt expected) = true).
    { unfold py_ne. simpl. apply negb_true_iff, Z.eqb_neq, Hne. }
    rewrite E. cbn [is_int andb].
    eapply reject_when_listed;
      [apply In_check; apply In_check_here | reflexivity].
Qed.

Lemma mismatch_reported_unless_pending_witness :
  (exists env,
      ValidateVerifyResponse.main (R := ascii_runtime)
        (JDict settled_mismatch) = Emit env 1
      /\ ok env = false /\ has_code "TX_REF_MISMATCH" env)
  /\ (exists env,
         ValidateVerifyResponse.main (R := ascii_runtime)
           (JDict settled_mismatch) = Emit env 1
         /\ ok env = false /\ has_code "AMOUNT_MISMATCH" env).
Proof.
  assert (Hpaid : get settled_mismatch "order_status" <> JStr "paid")
    by (vm_compute; discriminate).
  assert (Hst : get settled_payload "status"
                <> JStr "success-pending-validation")
    by (vm_compute; discriminate).
  destruct (mismatch_reported_unless_pending (R := ascii_runtime)
              settled_mismatch settled_payload Hpaid eq_refl Hst)
    as [Href Hamt].
  split.
  - apply (Href "order-1001" "order-2002"); [reflexivity..|discriminate].
  - apply (Hamt 5000 9000); [reflexivity..|discriminate].
Defined.

(** ** translate-provider-credentials: credentials that are not an object *)

(** C2 as stated fails: on provider "google" with credentials given as
    text, no MISSING_CREDENTIAL error is listed. *)
Lemma credentials_as_text_not_probed :
  ~ probes_defaulted_credentials (R := ascii_runtime) credentials_as_text.
Proof.
  intro Hclaim.
  destruct (Hclaim eq_refl eq_refl eq_refl)
    as (env & c & req & Hmain & Hreq & _ & Hall).
  vm_compute in Hreq. injection Hreq as <-.
  specialize (Hall "client_id" (or_introl eq_refl)).
  vm_compute in Hmain. injection Hmain as <- _.
  simpl in Hall. destruct Hall as [H | []]. discriminate H.
Qed.

(** C2, amended: for a supported provider whose [credentials] field is
    present and not an object, the run stops at the gate after the two shape
    checks: it prints [ok] false with INVALID_CREDENTIALS as the only error
    and an empty [result], and exits with status 1; the required keys are
    not probed. *)
Theorem invalid_credentials_gate {R : PyRuntime} (data : dict json) :
  has_key (TranslateProviderCredentials.provider_of data)
    TranslateProviderCredentials.PROVIDER_REQUIREMENTS = true ->
  has_key "credentials" data = true ->
  is_dict (get data "credentials") = false ->
  TranslateProviderCredentials.main (JDict data)
  = Emit (mk_envelope false TranslateProviderCredentials.tool_name
            [invalid_credentials] [] []) 1.
Proof.
  intros Hprov _ Hcreds. unfold TranslateProviderCredentials.main.
  rewrite Hprov.
  destruct (get data "credentials"); try discriminate; reflexivity.
Qed.

Lemma invalid_credentials_gate_witness :
  TranslateProviderCredentials.main (R := ascii_runtime)
    (JDict credentials_as_text)
  = Emit (mk_envelope false TranslateProviderCredentials.tool_name
            [invalid_credentials] [] []) 1.
Proof.
  apply (invalid_credentials_gate (R := ascii_runtime) credentials_as_text);
    reflexivity.
Defined.

(** ** translate-provider-credentials: the loop over the required keys *)

Section Probe.
Context {R : PyRuntime}.
Variables (provider : string)
          (req : TranslateProviderCredentials.requirement)
          (creds : dict json).


Lemma probe_keeps_errors (keys : list string) :
  forall errs mapped errs' mapped' e,
    TranslateProviderCredentials.probe provider req creds keys errs mapped
    = inr (errs', mapped') ->
    In e errs -> In e errs'.
Proof.
  induction keys as [|k keys IH]; simpl;
    intros errs mapped errs' mapped' e H Hin.
  - now injection H as <- _.
  - destruct (truthy (get creds k)); simpl in H.
    + destruct (lookup k creds); [|discriminate].
      destruct (lookup k (TranslateProviderCredentials.env req));
        [|discriminate].
      eauto.
    + eapply IH; [exact H|]. apply in_or_app. now left.
Qed.

Lemma probe_reports_falsy (key : string) (keys : list string) :
  truthy (get creds key) = false -> In key keys ->
  forall errs mapped errs' mapped',
    TranslateProviderCredentials.probe provider req creds keys errs mapped
    = inr (errs', mapped') ->
    In (TranslateProviderCredentials.missing_credential provider key) errs'.
Proof.
  intros Hfalsy. induction keys as [|k keys IH]; simpl; [contradiction|].
  intros [-> | Hin] errs mapped errs' mapped' H.
  - rewrite Hfalsy in H. simpl in H.
    eapply probe_keeps_errors; [exact H|]. apply in_or_app. right. now left.
  - destruct (truthy (get creds k)); simpl in H.
    + destruct (lookup k creds); [|discriminate].
      destruct (lookup k (TranslateProviderCredentials.env req));
        [|discriminate].
      eauto.
    + eauto.
Qed.

(** No subscript of the loop raises KeyError when the table names an
    environment variable for every key. *)
Lemma probe_returns (keys : list string) :
  (forall k, In k keys ->
             has_key k (TranslateProviderCredentials.env req) = true) ->
  forall errs mapped,
    exists errs' mapped',
      TranslateProviderCredentials.probe provider req creds keys errs mapped
      = inr (errs', mapped').
Proof.
  induction keys as [|k keys IH]; simpl; intros Henv errs mapped; [eauto|].
  destruct (truthy (get creds k)) eqn:T; simpl; [|now apply IH; auto].
  assert (Hk : has_key k (TranslateProviderCredentials.env req) = true)
    by auto.
  unfold has_key in Hk.
  destruct (lookup k (TranslateProviderCredentials.env req)); [|discriminate].
  unfold get, get_default in T.
  destruct (lookup k creds); [|discriminate]. apply IH; auto.
Qed.

Lemma probe_leaves_unmapped (key name : string) (keys : list string) :
  truthy (get creds key) = false ->
  (forall k, In k keys -> k <> key ->
             lookup k (TranslateProviderCredentials.env req) <> Some name) ->
  forall errs mapped errs' mapped',
    lookup name mapped = None ->
    TranslateProviderCredentials.probe provider req creds keys errs mapped
    = inr (errs', mapped') ->
    lookup name mapped' = None.
Proof.
  intros Hfalsy. induction keys as [|k keys IH]; simpl;
    intros Hinj errs mapped errs' mapped' Hm H.
  - now injection H as _ <-.
  - destruct (truthy (get creds k)) eqn:T; simpl in H.
    + destruct (lookup k creds); [|discriminate].
      destruct (lookup k (TranslateProviderCredentials.env req))
        as [name'|] eqn:En; [|discriminate].
      eapply IH; [auto | | exact H].
      rewrite lookup_dict_set_ne; [assumption|].
      intros ->. apply (Hinj k); auto. intros ->. congruence.
    + eapply IH; eauto.
Qed.

(** A key bound to a falsy value can be deleted without changing the
    loop. *)
Lemma probe_ignores_falsy (key : string) (keys : list string) :
  truthy (get creds key) = false ->
  forall errs mapped,
    TranslateProviderCredentials.probe provider req (dict_remove key creds)
      keys errs mapped
    = TranslateProviderCredentials.probe provider req creds keys errs mapped.
Proof.
  intros Hfalsy. induction keys as [|k keys IH]; simpl; intros errs mapped;
    [reflexivity|].
  destruct (String.eqb_spec k key) as [-> | Hne].
  - rewrite Hfalsy. unfold get, get_default. rewrite lookup_remove_eq.
    simpl. apply IH.
  - unfold get, get_default. rewrite (lookup_remove_ne _ _ _ Hne).
    destruct (lookup k creds) as [v|]; simpl; [|apply IH].
    destruct (truthy v); simpl; [|apply IH].
    destruct (lookup k (TranslateProviderCredentials.env req));
      [apply IH | reflexivity].
Qed.

End Probe.

Lemma table_ok (provider : string)
    (req : TranslateProviderCredentials.requirement) :
  lookup provider TranslateProviderCredentials.PROVIDER_REQUIREMENTS
  = Some req ->
  requirement_ok req = true.
Proof.
  intro H. apply lookup_In in H.
  assert (T : forallb (fun kv => requirement_ok (snd kv))
                TranslateProviderCredentials.PROVIDER_REQUIREMENTS = true)
    by reflexivity.
  rewrite forallb_forall in T. exact (T _ H).
Qed.

Lemma requirement_ok_env (req : TranslateProviderCredentials.requirement)
    (k : string) :
  requirement_ok req = true ->
  In k (TranslateProviderCredentials.required req) ->
  has_key k (TranslateProviderCredentials.env req) = true.
Proof.
  unfold requirement_ok. rewrite forallb_forall. intros H Hin.
  apply H in Hin. now apply andb_true_iff in Hin.
Qed.

Lemma requirement_ok_distinct
    (req : TranslateProviderCredentials.requirement) (k k' name : string) :
  requirement_ok req = true ->
  In k (TranslateProviderCredentials.required req) ->
  In k' (TranslateProviderCredentials.required req) ->
  k' <> k ->
  lookup k (TranslateProviderCredentials.env req) = Some name ->
  lookup k' (TranslateProviderCredentials.env req) <> Some name.
Proof.
  unfold requirement_ok. rewrite forallb_forall. intros H Hk Hk' Hne Hn Hn'.
  apply H in Hk. apply andb_true_iff in Hk. destruct Hk as [_ Hk].
  rewrite forallb_forall in Hk. apply Hk in Hk'.
  rewrite Hn, Hn', String.eqb_refl in Hk'.
  apply String.eqb_neq in Hne. rewrite Hne in Hk'. discriminate.
Qed.

(** [main] past its gate: a supported provider and an object of
    credentials. *)
Lemma main_supported {R : PyRuntime} (data creds : dict json)
    (req : TranslateProviderCredentials.requirement) :
  lookup (TranslateProviderCredentials.provider_of data)
    TranslateProviderCredentials.PROVIDER_REQUIREMENTS = Some req ->
  get data "credentials" = JDict creds ->
  TranslateProviderCredentials.main (JDict data)
  = match TranslateProviderCredentials.probe
            (TranslateProviderCredentials.provider_of data) req creds
            (TranslateProviderCredentials.required req) [] [] with
    | inl e => Crash e
    | inr (e :: errs, _) =>
        Emit (mk_envelope false TranslateProviderCredentials.tool_name
                (e :: errs) []
                [("provider",
                  JStr (TranslateProviderCredentials.provider_of data))]) 1
    | inr ([], mapped) =>
        Emit (mk_envelope true TranslateProviderCredentials.tool_name [] []
                [("provider",
                  JStr (TranslateProviderCredentials.provider_of data));
                 ("env_mapping",
                  JDict (map (fun kv => (fst kv, JStr (snd kv))) mapped))]) 0
    end.
Proof.
  intros Hreq Hcreds. unfold TranslateProviderCredentials.main.
  rewrite (has_key_lookup _ _ _ Hreq), Hcreds. cbn [negb check].
  now rewrite Hreq.
Qed.

(** C9: for a supported provider, a key of the credentials object bound to
    a falsy value ("", null, false, 0, ...) is treated exactly like an
    absent key: the run is the run on the credentials without that key, and
    when the key is one the provider requires, a MISSING_CREDENTIAL error
    with path [credentials.<key>] is emitted and the key's environment
    variable is not in the mapping. *)
Theorem falsy_credential_is_missing {R : PyRuntime} (data creds : dict json)
    (req : TranslateProviderCredentials.requirement) (key : string)
    (v : json) :
  lookup (TranslateProviderCredentials.provider_of data)
    TranslateProviderCredentials.PROVIDER_REQUIREMENTS = Some req ->
  get data "credentials" = JDict creds ->
  lookup key creds = Some v ->
  truthy v = false ->
  TranslateProviderCredentials.main (JDict data)
  = TranslateProviderCredentials.main
      (JDict (dict_set "credentials" (JDict (dict_remove key creds)) data))
  /\ (In key (TranslateProviderCredentials.required req) ->
      (exists env,
          TranslateProviderCredentials.main (JDict data) = Emit env 1
          /\ ok env = false
          /\ In (TranslateProviderCredentials.missing_credential
                   (TranslateProviderCredentials.provider_of data) key)
                (errors env)
          /\ path (TranslateProviderCredentials.missing_credential
                     (TranslateProviderCredentials.provider_of data) key)
             = "credentials." ++ key)
      /\ (exists errs mapped name,
             TranslateProviderCredentials.probe
               (TranslateProviderCredentials.provider_of data) req creds
               (TranslateProviderCredentials.required req) [] []
             = inr (errs, mapped)
             /\ lookup key (TranslateProviderCredentials.env req) = Some name
             /\ lookup name mapped = None)).
Proof.
  intros Hreq Hcreds Hv Hfalsy.
  pose proof (table_ok _ _ Hreq) as Hok.
  assert (Hget : truthy (get creds key) = false)
    by now rewrite (get_lookup _ _ _ Hv).
  split.
  - set (absent := dict_set _ _ data).
    assert (Hp : TranslateProviderCredentials.provider_of absent
                 = TranslateProviderCredentials.provider_of data).
    { unfold TranslateProviderCredentials.provider_of, get_default, absent.
      rewrite lookup_dict_set_ne; [reflexivity | discriminate]. }
    assert (Hc : get absent "credentials" = JDict (dict_remove key creds)).
    { unfold get, get_default, absent. now rewrite lookup_dict_set_eq. }
    rewrite (main_supported data creds req Hreq Hcreds).
    rewrite <- Hp in Hreq.
    rewrite (main_supported absent _ req Hreq Hc), Hp.
    now rewrite probe_ignores_falsy.
  - intro Hkey.
    destruct (probe_returns (TranslateProviderCredentials.provider_of data)
                req creds (TranslateProviderCredentials.required req)
                (fun k => requirement_ok_env req k Hok) [] [])
      as (errs & mapped & Hprobe).
    pose proof (probe_reports_falsy _ _ _ _ _ Hget Hkey _ _ _ _ Hprobe)
      as Hin.
    split.
    + rewrite (main_supported _ _ _ Hreq Hcreds), Hprobe.
      destruct errs as [|e errs]; [contradiction|].
      eexists. repeat split. exact Hin.
    + pose proof (requirement_ok_env req key Hok Hkey) as Henv.
      unfold has_key in Henv.
      destruct (lookup key (TranslateProviderCredentials.env req))
        as [name|] eqn:En; [|discriminate].
      exists errs, mapped, name. repeat split; [assumption|].
      eapply (probe_leaves_unmapped _ _ _ key name);
        [exact Hget | | | exact Hprobe].
      * intros k Hk Hne.
        exact (requirement_ok_distinct req key k name Hok Hkey Hk Hne En).
      * reflexivity.
Qed.

Lemma falsy_credential_is_missing_witness :
  TranslateProviderCredentials.main (R := ascii_runtime)
    (JDict apple_zero_client_id)
  = TranslateProviderCredentials.main (R := ascii_runtime)
      (JDict [("provider", JStr "Apple");
              ("credentials",
               JDict [("team_id", JStr "T1"); ("key_id", JStr "K1");
                      ("private_key", JStr "pem")])])
  /\ exists env,
      TranslateProviderCredentials.main (R := ascii_runtime)
        (JDict apple_zero_client_id) = Emit env 1
      /\ ok env = false
      /\ In (TranslateProviderCredentials.missing_credential
               "apple" "client_id")
            (errors env).
Proof.
  destruct (falsy_credential_is_missing (R := ascii_runtime)
              apple_zero_client_id apple_credentials
              {| TranslateProviderCredentials.required :=
                   ["client_id"; "team_id"; "key_id"; "private_key"];
                 TranslateProviderCredentials.env :=
                   [("client_id", "APPLE_CLIENT_ID");
                    ("team_id", "APPLE_TEAM_ID");
                    ("key_id", "APPLE_KEY_ID");
                    ("private_key", "APPLE_PRIVATE_KEY")] |}
              "client_id" (JInt 0) eq_refl eq_refl eq_refl eq_refl)
    as (Hsame & Hreq).
  destruct (Hreq (or_introl eq_refl)) as ((env & H1 & H2 & H3 & _) & _).
  split; [exact Hsame|]. exists env. repeat split; assumption.
Defined.

(** ** Runs that print an envelope *)

Ltac emit_cases :=
  cbv zeta;
  repeat match goal with
    | |- emits (Emit _ _) => do 2 eexists; reflexivity
    | |- emits (match ?x with _ => _ end) => destruct x
    end.

(** On an input object every validator prints an envelope, provided the
    two library calls that can raise do not: [hash] of the signature mode
    and [urlparse]. *)
Lemma object_input_emits {R : PyRuntime} (p : process) (v : validator)
    (data : dict json) :
  match v with
  | check_webhook_signature_mode =>
      hashable (get data "signature_mode") = true
  | validate_redirect_uri =>
      forall s, urlparse s <> None
  | _ => True
  end ->
  emits (run p v (JDict data)).
Proof.
  destruct v; unfold run; intro H.
  - unfold TranslateProviderCredentials.main.
    destruct (lookup (TranslateProviderCredentials.provider_of data)
                TranslateProviderCredentials.PROVIDER_REQUIREMENTS)
      as [req|] eqn:Hreq.
    + rewrite (has_key_lookup _ _ _ Hreq). cbn [negb check].
      destruct (probe_returns (TranslateProviderCredentials.provider_of data)
                  req
                  match get data "credentials" with
                  | JDict creds => creds
                  | _ => []
                  end
                  (TranslateProviderCredentials.required req)
                  (fun k => requirement_ok_env req k (table_ok _ _ Hreq))
                  [] [])
        as (errs & mapped & Hprobe).
      destruct (get data "credentials"); cbv beta iota zeta;
        try (do 2 eexists; reflexivity).
      rewrite Hprobe. destruct errs; do 2 eexists; reflexivity.
    + unfold has_key. rewrite Hreq. cbn [negb check].
      destruct (get data "credentials"); do 2 eexists; reflexivity.
  - unfold ValidateOutputSchema.main. emit_cases.
  - unfold ValidateRedirectUri.main. cbv zeta.
    destruct (check _ _ (check _ _ _)); [|do 2 eexists; reflexivity].
    destruct (urlparse (py_str (get data "backend_base_url"))) eqn:Hb;
      [|now apply H in Hb].
    destruct (urlparse (py_str (get data "redirect_uri"))) eqn:Hr;
      [|now apply H in Hr].
    emit_cases.
  - unfold CheckWebhookSignatureMode.main. rewrite H. cbn [negb].
    emit_cases.
  - unfold ValidateVerifyResponse.main. emit_cases.
  - unfold CheckWebhookContract.main. emit_cases.
  - unfold ValidatePaymentContract.main. emit_cases.
Qed.

(** ** validate-output-schema: a summary that is not text *)

Lemma check_items_keeps (P : error -> Prop) (items : list json) :
  (forall e rest,
      In (code e) ["MISSING_FIELD"; "INVALID_ITEM"] ->
      path e = "machine_json.validation_results[" ++ rest ->
      P e) ->
  forall idx errs,
    Forall P errs ->
    Forall P (ValidateOutputSchema.check_items items idx errs).
Proof.
  intro HP. induction items as [|item items IH]; simpl; intros idx errs H;
    [assumption|].
  destruct item; apply IH;
    try (apply Forall_app; split; [assumption|]; constructor; [|constructor];
         eapply HP; [right; left; reflexivity | reflexivity]).
  apply check_keeps; [assumption|]. intros _.
  eapply HP; [left; reflexivity | reflexivity].
Qed.

Ltac keep_not_about_summary :=
  repeat first
    [ assumption
    | apply Forall_nil
    | apply check_items_keeps;
      [ let Hc := fresh "Hc" in
        let Hp := fresh "Hp" in
        intros ? ? Hc Hp; split;
        [ rewrite Hp; discriminate
        | destruct Hc as [<- | [<- | []]]; discriminate ]
      | ]
    | apply check_keeps;
      [ | let Hc := fresh "Hc" in
          intro Hc; first [discriminate Hc | split; cbn; discriminate] ]
    | apply Forall_app; split;
      [ | constructor; [split; cbn; discriminate | constructor] ] ].

(** C10: the EMPTY_SUMMARY check applies only to a str.  When the
    [summary] key is present with a value that is not a str, no emitted
    error is about [summary], and the run is the run on the same document
    with any non-blank text as its summary: the input is accepted whenever
    its other fields pass. *)
Theorem non_string_summary_unchecked {R : PyRuntime} (data : dict json)
    (v : json) :
  lookup "summary" data = Some v ->
  is_str v = false ->
  (exists env c,
      ValidateOutputSchema.main (JDict data) = Emit env c
      /\ Forall not_about_summary (errors env))
  /\ (forall s : string,
         py_strip s <> "" ->
         ValidateOutputSchema.main (JDict data)
         = ValidateOutputSchema.main
             (JDict (dict_set "summary" (JStr s) data))).
Proof.
  intros Hsum Hv.
  assert (Hcond : match v with
                  | JStr summary => py_strip summary =? ""
                  | _ => false
                  end = false)
    by (destruct v; try reflexivity; discriminate).
  split.
  - unfold ValidateOutputSchema.main.
    rewrite (get_lookup _ _ _ Hsum), Hcond.
    cbn [fold_left ValidateOutputSchema.REQUIRED_ROOT
           ValidateOutputSchema.REQUIRED_MACHINE].
    rewrite (has_key_lookup _ _ _ Hsum). cbn [negb].
    destruct (get data "machine_json") as [| | | | | |machine];
      cbv beta iota zeta;
      edestruct emitted_errors as (env & c & Heq & Herr);
      exists env, c; (split; [exact Heq|]); rewrite Herr; clear Heq Herr;
      try match goal with
          | |- Forall _ (match ?r with _ => _ end) => destruct r
          end;
      keep_not_about_summary.
  - intros s Hs.
    assert (F1 : lookup "summary" (dict_set "summary" (JStr s) data)
                 = Some (JStr s)) by apply lookup_dict_set_eq.
    assert (F2 : forall k, k <> "summary" ->
                           lookup k (dict_set "summary" (JStr s) data)
                           = lookup k data)
      by (intros k Hk; now apply lookup_dict_set_ne).
    apply String.eqb_neq in Hs.
    unfold ValidateOutputSchema.main.
    cbn [fold_left ValidateOutputSchema.REQUIRED_ROOT].
    unfold has_key, get, get_default.
    rewrite F1, Hsum, Hcond, Hs.
    rewrite !(F2 "artifacts"), !(F2 "next_actions"), !(F2 "machine_json")
      by discriminate.
    reflexivity.
Qed.

Lemma non_string_summary_unchecked_witness :
  (exists env c,
      ValidateOutputSchema.main (R := ascii_runtime) (JDict numeric_summary)
      = Emit env c
      /\ Forall not_about_summary (errors env))
  /\ ValidateOutputSchema.main (R := ascii_runtime) (JDict numeric_summary)
     = ValidateOutputSchema.main (R := ascii_runtime)
         (JDict (dict_set "summary" (JStr "Login flow reviewed.")
                   numeric_summary)).
Proof.
  destruct (non_string_summary_unchecked (R := ascii_runtime)
              numeric_summary (JInt 42) eq_refl eq_refl) as (H1 & H2).
  split; [exact H1|].
  apply H2. vm_compute. discriminate.
Defined.

(** The numeric summary passes: every other field is in order. *)
Lemma numeric_summary_accepted {R : PyRuntime} :
  ValidateOutputSchema.main (JDict numeric_summary)
  = Emit (mk_envelope true ValidateOutputSchema.tool_name [] []
            [("action", JStr "schema-valid")]) 0.
Proof. reflexivity. Qed.

(** * Further properties of the validators *)

(** ** What a validator reads *)

Ltac agree_key H k :=
  let E := fresh "E" in
  assert (E := H k ltac:(simpl; auto 12)); rewrite ?E; clear E.

(** X1: every validator decides from the keys it reads and from nothing
    else: two input objects that bind those keys alike get the same
    outcome, whatever else they hold and in whatever order. *)
Theorem run_reads_only {R : PyRuntime} (p : process) (v : validator)
    (d1 d2 : dict json) :
  agree_on (reads v) d1 d2 ->
  run p v (JDict d1) = run p v (JDict d2).
Proof.
  intro H. unfold agree_on in H.
  destruct v; unfold run, reads in *.
  - unfold TranslateProviderCredentials.main,
      TranslateProviderCredentials.provider_of, get, get_default.
    agree_key H "provider". agree_key H "credentials". reflexivity.
  - unfold ValidateOutputSchema.main.
    cbn [fold_left ValidateOutputSchema.REQUIRED_ROOT].
    unfold has_key, get, get_default.
    agree_key H "summary". agree_key H "artifacts".
    agree_key H "next_actions". agree_key H "machine_json". reflexivity.
  - unfold ValidateRedirectUri.main, get, get_default.
    agree_key H "backend_base_url". agree_key H "redirect_uri". reflexivity.
  - unfold CheckWebhookSignatureMode.main, get, get_default.
    agree_key H "signature_mode". agree_key H "headers".
    agree_key H "raw_body_enabled". reflexivity.
  - unfold ValidateVerifyResponse.main. cbn [fold_left].
    unfold has_key, get, get_default.
    agree_key H "expected_tx_ref". agree_key H "expected_amount".
    agree_key H "verify_payload". agree_key H "order_status". reflexivity.
  - unfold CheckWebhookContract.main, get, get_default.
    agree_key H "raw_body_enabled". agree_key H "signature_header_name".
    agree_key H "headers". agree_key H "order_status".
    agree_key H "expected_reference". agree_key H "event_reference".
    agree_key H "expected_amount_kobo". agree_key H "event_amount_kobo".
    reflexivity.
  - unfold ValidatePaymentContract.main. cbn [fold_left].
    unfold has_key, get, get_default.
    agree_key H "expected_reference". agree_key H "expected_amount_kobo".
    agree_key H "verify_payload". agree_key H "order_status". reflexivity.
Qed.

Lemma run_reads_only_witness :
  agree_on (reads validate_payment_contract) contract_success
    (with_note contract_success)
  /\ run (R := ascii_runtime) process0 validate_payment_contract
       (JDict contract_success)
     = run (R := ascii_runtime) process0 validate_payment_contract
         (JDict (with_note contract_success)).
Proof.
  assert (H : agree_on (reads validate_payment_contract) contract_success
                (with_note contract_success)).
  { intros k Hk. simpl in Hk.
    destruct Hk as [<- | [<- | [<- | [<- | []]]]]; reflexivity. }
  split; [exact H|].
  exact (run_reads_only (R := ascii_runtime) process0
           validate_payment_contract _ _ H).
Defined.

(** ** The no-op answer is kept for paid orders *)
Lemma not_noop_emit (env : envelope) (c : Z) :
  lookup "idempotent" (result env) <> Some (JBool true) ->
  ~ idempotent_success (Emit env c).
Proof.
  intros H (env' & Heq & _ & Hid). injection Heq as <- _. contradiction.
Qed.

Ltac not_noop_cases :=
  cbv zeta;
  repeat match goal with
    | |- ~ idempotent_success (Emit _ _) =>
        apply not_noop_emit; simpl; discriminate
    | |- ~ idempotent_success (match ?x with _ => _ end) => destruct x
    end.

(** X2: the three payment validators give the idempotent no-op answer
    only when [order_status] is "paid". *)
Theorem noop_only_when_paid {R : PyRuntime} (data : dict json) :
  (idempotent_success (ValidateVerifyResponse.main (JDict data))
   \/ idempotent_success (CheckWebhookContract.main (JDict data))
   \/ idempotent_success (ValidatePaymentContract.main (JDict data))) ->
  get data "order_status" = JStr "paid".
Proof.
  destruct (py_eq (get data "order_status") (JStr "paid")) eqn:E;
    [intros _; now apply py_eq_JStr|].
  intros [H | [H | H]]; exfalso; revert H;
    match goal with |- ?P -> False => change (~ P) end.
  - unfold ValidateVerifyResponse.main. rewrite E. not_noop_cases.
  - unfold CheckWebhookContract.main. rewrite E. not_noop_cases.
  - unfold ValidatePaymentContract.main. rewrite E. not_noop_cases.
Qed.

Lemma noop_only_when_paid_witness :
  idempotent_success
    (ValidateVerifyResponse.main (R := ascii_runtime) (JDict paid_order))
  /\ get paid_order "order_status" = JStr "paid".
Proof.
  assert (H : idempotent_success
                (ValidateVerifyResponse.main (R := ascii_runtime)
                   (JDict paid_order)))
    by (eexists; repeat split).
  split; [exact H|].
  exact (noop_only_when_paid (R := ascii_runtime) paid_order (or_introl H)).
Defined.

(** ** validate-verify-response: the pending status *)
(** X3: validate-verify-response answers a verification whose status
    is "success-pending-validation" with the await-webhook envelope and
    status 0 as soon as the order is not paid and [verify_payload] is an
    object: missing expectations, missing payload fields and mismatches
    collected before do not show. *)
Theorem pending_short_circuit {R : PyRuntime} (data payload : dict json) :
  get data "order_status" <> JStr "paid" ->
  lookup "verify_payload" data = Some (JDict payload) ->
  get payload "status" = JStr "success-pending-validation" ->
  ValidateVerifyResponse.main (JDict data) = await_webhook.
Proof.
  intros Hpaid Hpl Hst. unfold ValidateVerifyResponse.main.
  rewrite (get_default_lookup _ _ _ _ Hpl). cbv beta iota zeta.
  rewrite (py_eq_JStr_false _ _ Hpaid), Hst.
  reflexivity.
Qed.

Lemma pending_short_circuit_witness :
  ValidateVerifyResponse.main (R := ascii_runtime)
    (JDict pending_without_expectations) = await_webhook.
Proof.
  apply (pending_short_circuit (R := ascii_runtime)
           pending_without_expectations
           [("status", JStr "success-pending-validation")]);
    [vm_compute; discriminate | reflexivity | reflexivity].
Defined.

(** ** Library calls that raise *)
Ltac no_crash_cases :=
  cbv zeta;
  repeat match goal with
    | |- ~ crashes (Emit _ _) => intros [? ?]; discriminate
    | |- ~ crashes (match ?x with _ => _ end) => destruct x
    end.

(** X8: check-webhook-signature-mode ends in an uncaught exception
    exactly when [signature_mode] is a list or an object, and the exception
    is the TypeError of the set membership test. *)
Theorem signature_mode_crash {R : PyRuntime} (p : process)
    (data : dict json) :
  (crashes (CheckWebhookSignatureMode.main p (JDict data))
   <-> hashable (get data "signature_mode") = false)
  /\ (hashable (get data "signature_mode") = false ->
      CheckWebhookSignatureMode.main p (JDict data) = Crash TypeError).
Proof.
  assert (Hc : hashable (get data "signature_mode") = false ->
               CheckWebhookSignatureMode.main p (JDict data)
               = Crash TypeError).
  { intro H. unfold CheckWebhookSignatureMode.main. now rewrite H. }
  split; [|exact Hc]. split.
  - destruct (hashable (get data "signature_mode")) eqn:H; [|reflexivity].
    intro Hcrash. exfalso. revert Hcrash.
    match goal with |- ?P -> False => change (~ P) end.
    unfold CheckWebhookSignatureMode.main. rewrite H. cbn [negb].
    no_crash_cases.
  - intro H. exists TypeError. auto.
Qed.

Lemma signature_mode_crash_witness :
  CheckWebhookSignatureMode.main (R := ascii_runtime) process0
    (JDict mode_as_list) = Crash TypeError.
Proof.
  apply (proj2 (signature_mode_crash (R := ascii_runtime) process0
                  mode_as_list)).
  reflexivity.
Defined.

(** X10: validate-redirect-uri ends in an uncaught exception exactly when
    both fields are given and [urlparse] raises on one of them; it is a
    ValueError. *)
Theorem redirect_uri_crash {R : PyRuntime} (data : dict json) :
  (crashes (ValidateRedirectUri.main (JDict data))
   <-> truthy (get data "backend_base_url") = true
       /\ truthy (get data "redirect_uri") = true
       /\ (urlparse (py_str (get data "backend_base_url")) = None
           \/ urlparse (py_str (get data "redirect_uri")) = None))
  /\ (crashes (ValidateRedirectUri.main (JDict data)) ->
      ValidateRedirectUri.main (JDict data) = Crash ValueError).
Proof.
  unfold ValidateRedirectUri.main. cbv zeta.
  destruct (truthy (get data "backend_base_url")),
    (truthy (get data "redirect_uri")); cbn [negb check app].
  2-4: split; [split; [intros [? ?]; discriminate
                      | intros (? & ? & ?); discriminate]
              | intros [? ?]; discriminate].
  destruct (urlparse (py_str (get data "backend_base_url"))) as [b|].
  2: { split; [split; [tauto | intros _; now exists ValueError]
              | reflexivity]. }
  destruct (urlparse (py_str (get data "redirect_uri"))) as [r|].
  2: { split; [split; [tauto | intros _; now exists ValueError]
              | reflexivity]. }
  match goal with
  | |- (crashes ?X <-> _) /\ _ => assert (N : ~ crashes X) by no_crash_cases
  end.
  split; [split; [intro; contradiction
                 | intros (_ & _ & [? | ?]); discriminate]
         | intro; contradiction].
Qed.

Lemma redirect_uri_crash_witness :
  ValidateRedirectUri.main (R := ascii_runtime) (JDict unclosed_bracket)
  = Crash ValueError.
Proof.
  apply (proj2 (redirect_uri_crash (R := ascii_runtime) unclosed_bracket)).
  apply (proj1 (redirect_uri_crash (R := ascii_runtime) unclosed_bracket)).
  repeat split. right. reflexivity.
Defined.

(** ** validate-redirect-uri: the two gates *)
(** X11: when [backend_base_url] or [redirect_uri] is absent or falsy,
    validate-redirect-uri stops at its first gate: the envelope lists one
    MISSING_FIELD error per missing field and nothing else, the result is
    empty, and the URLs are not parsed. *)
Theorem redirect_missing_field_gate {R : PyRuntime} (data : dict json) :
  truthy (get data "backend_base_url") = false
  \/ truthy (get data "redirect_uri") = false ->
  ValidateRedirectUri.main (JDict data)
  = Emit (mk_envelope false ValidateRedirectUri.tool_name
            ((if truthy (get data "backend_base_url") then []
              else [missing_backend_base_url])
             ++ (if truthy (get data "redirect_uri") then []
                 else [missing_redirect_uri]))%list
            [] []) 1.
Proof.
  unfold ValidateRedirectUri.main. cbv zeta.
  destruct (truthy (get data "backend_base_url")),
    (truthy (get data "redirect_uri")); cbn [negb check app];
    intros [H | H]; try discriminate H; reflexivity.
Qed.

Lemma redirect_missing_field_gate_witness :
  ValidateRedirectUri.main (R := ascii_runtime) (JDict only_backend)
  = Emit (mk_envelope false ValidateRedirectUri.tool_name
            [missing_redirect_uri] [] []) 1.
Proof.
  apply (redirect_missing_field_gate (R := ascii_runtime) only_backend).
  right. reflexivity.
Defined.

(** ** validate-redirect-uri: what is accepted *)
Lemma check_nil (c : bool) (e : error) (errs : list error) :
  check c e errs = [] <-> c = false /\ errs = [].
Proof.
  rewrite check_app. destruct c; split.
  - intro H. apply app_eq_nil in H. destruct H. discriminate.
  - intros [H _]. discriminate.
  - rewrite app_nil_r. auto.
  - intros [_ ->]. reflexivity.
Qed.

Lemma scheme_is_web (s : string) :
  negb (existsb (String.eqb s) ["http"; "https"]) = false
  <-> s = "http" \/ s = "https".
Proof.
  rewrite negb_false_iff. simpl. rewrite orb_false_r, orb_true_iff.
  now rewrite !String.eqb_eq.
Qed.

Lemma host_is_local (h : option string) :
  in_strs (ValidateRedirectUri.host_json h) ["localhost"; "127.0.0.1"] = true
  <-> h = Some "localhost" \/ h = Some "127.0.0.1".
Proof.
  destruct h as [s|]; simpl.
  - rewrite orb_false_r, orb_true_iff, !String.eqb_eq.
    split; (intros [H | H]; [left | right]; congruence).
  - split; [discriminate | intros [H | H]; discriminate].
Qed.

Lemma hosts_match (h1 h2 : option string) :
  ValidateRedirectUri.host_truthy h1 && ValidateRedirectUri.host_truthy h2
  && ValidateRedirectUri.host_ne h1 h2 = false
  <-> h1 = h2 \/ ValidateRedirectUri.host_truthy h1 = false
      \/ ValidateRedirectUri.host_truthy h2 = false.
Proof.
  destruct (ValidateRedirectUri.host_truthy h1) eqn:T1; simpl;
    [|split; auto].
  destruct (ValidateRedirectUri.host_truthy h2) eqn:T2; simpl;
    [|split; auto].
  destruct h1 as [s|], h2 as [t|]; try discriminate.
  unfold ValidateRedirectUri.host_ne, py_ne. simpl.
  rewrite negb_false_iff, String.eqb_eq. split.
  - intros ->. now left.
  - intros [H | [H | H]]; congruence.
Qed.

Lemma secure_or_local (s : string) (l : bool) :
  negb (s =? "https") && negb l = false <-> s = "https" \/ l = true.
Proof.
  rewrite andb_false_iff, !negb_false_iff, String.eqb_eq. reflexivity.
Qed.

(** X12: on two URLs that parse, validate-redirect-uri accepts exactly
    the acceptable pairs, and echoes the two hosts and the redirect path of
    an accepted pair. *)
Theorem redirect_acceptance {R : PyRuntime} (data : dict json)
    (b r : ParseResult) :
  truthy (get data "backend_base_url") = true ->
  truthy (get data "redirect_uri") = true ->
  urlparse (py_str (get data "backend_base_url")) = Some b ->
  urlparse (py_str (get data "redirect_uri")) = Some r ->
  (redirect_acceptable b r ->
   ValidateRedirectUri.main (JDict data)
   = Emit (mk_envelope true ValidateRedirectUri.tool_name [] []
             [("backend_host", ValidateRedirectUri.host_json (hostname b));
              ("redirect_host", ValidateRedirectUri.host_json (hostname r));
              ("redirect_path", JStr (url_path r));
              ("action", JStr "redirect-uri-valid")]) 0)
  /\ (~ redirect_acceptable b r ->
      exists env, ValidateRedirectUri.main (JDict data) = Emit env 1
                  /\ ok env = false /\ result env = []).
Proof.
  intros Tb Tr Pb Pr. unfold ValidateRedirectUri.main.
  rewrite Tb, Tr. cbn [negb check]. rewrite Pb, Pr. cbv zeta.
  match goal with
  | |- (_ -> match ?E with _ => _ end = _) /\ _ =>
      assert (HE : E = [] <-> redirect_acceptable b r);
      [|destruct E as [|e errs]]
  end.
  - rewrite !check_nil. unfold redirect_acceptable.
    rewrite hosts_match, !scheme_is_web, secure_or_local, host_is_local,
      negb_false_iff.
    split.
    + intros (C5 & C4 & C3 & C2 & C1 & _). repeat split; try assumption.
      destruct C3 as [C3 | C3]; [now left|].
      destruct C2 as [C2 | C2]; [right; split; assumption | now left].
    + intros (C1 & C2 & C4 & C5). repeat split; try assumption.
      * destruct C2 as [C2 | [_ C2]]; [now left | now right].
      * destruct C2 as [C2 | [C2 _]]; [now right | now left].
  - split; [reflexivity|]. intro N. exfalso. apply N, HE. reflexivity.
  - split.
    + intro A. apply HE in A. discriminate.
    + intros _. eexists. repeat split.
Qed.

Lemma redirect_acceptance_witness :
  ValidateRedirectUri.main (R := ascii_runtime) (JDict local_callback)
  = Emit (mk_envelope true ValidateRedirectUri.tool_name [] []
            [("backend_host", JStr "localhost");
             ("redirect_host", JStr "localhost");
             ("redirect_path", JStr "/auth/github/callback");
             ("action", JStr "redirect-uri-valid")]) 0.
Proof.
  refine (proj1 (redirect_acceptance (R := ascii_runtime) local_callback
                   {| scheme := "http"; hostname := Some "localhost";
                      url_path := "" |}
                   {| scheme := "http"; hostname := Some "localhost";
                      url_path := "/auth/github/callback" |}
                   eq_refl eq_refl eq_refl eq_refl) _).
  unfold redirect_acceptable. simpl.
  repeat split; [now left | right; split; [reflexivity | now left] | now left].
Defined.

(** ** translate-provider-credentials: the three answers *)
(** X13: for a provider outside the table, translate-provider-credentials
    stops at its gate with UNSUPPORTED_PROVIDER first, INVALID_CREDENTIALS
    after it when the credentials are not an object, and an empty result:
    the table is not read. *)
Theorem unsupported_provider_gate {R : PyRuntime} (data : dict json) :
  has_key (TranslateProviderCredentials.provider_of data)
    TranslateProviderCredentials.PROVIDER_REQUIREMENTS = false ->
  TranslateProviderCredentials.main (JDict data)
  = Emit (mk_envelope false TranslateProviderCredentials.tool_name
            (unsupported_provider
               (TranslateProviderCredentials.provider_of data)
             :: (if is_dict (get data "credentials") then []
                 else [invalid_credentials]))
            [] []) 1.
Proof.
  intro H. unfold TranslateProviderCredentials.main. rewrite H.
  destruct (get data "credentials"); reflexivity.
Qed.

Lemma unsupported_provider_gate_witness :
  TranslateProviderCredentials.main (R := ascii_runtime) (JDict gitlab_login)
  = Emit (mk_envelope false TranslateProviderCredentials.tool_name
            [unsupported_provider "gitlab"; invalid_credentials] [] []) 1.
Proof.
  apply (unsupported_provider_gate (R := ascii_runtime) gitlab_login).
  reflexivity.
Defined.

Lemma probe_errors {R : PyRuntime} (provider : string)
    (req : TranslateProviderCredentials.requirement) (creds : dict json)
    (keys : list string) :
  forall errs mapped errs' mapped',
    TranslateProviderCredentials.probe provider req creds keys errs mapped
    = inr (errs', mapped') ->
    errs' = (errs
             ++ map (TranslateProviderCredentials.missing_credential provider)
                  (filter (fun k => negb (truthy (get creds k))) keys))%list.
Proof.
  induction keys as [|k keys IH]; simpl; intros errs mapped errs' mapped' H.
  - injection H as <- _. now rewrite app_nil_r.
  - destruct (truthy (get creds k)); simpl in *.
    + destruct (lookup k creds); [|discriminate].
      destruct (lookup k (TranslateProviderCredentials.env req));
        [|discriminate].
      eauto.
    + apply IH in H. now rewrite <- app_assoc in H.
Qed.

(** X14: for a supported provider with credentials that leave required
    keys out, the envelope lists one MISSING_CREDENTIAL error per missing
    key, in the order of the table, and nothing else; the result names the
    provider and holds no mapping. *)
Theorem missing_credentials_listed {R : PyRuntime} (data creds : dict json)
    (req : TranslateProviderCredentials.requirement) :
  lookup (TranslateProviderCredentials.provider_of data)
    TranslateProviderCredentials.PROVIDER_REQUIREMENTS = Some req ->
  get data "credentials" = JDict creds ->
  missing_keys req creds <> [] ->
  TranslateProviderCredentials.main (JDict data)
  = Emit (mk_envelope false TranslateProviderCredentials.tool_name
            (map (TranslateProviderCredentials.missing_credential
                    (TranslateProviderCredentials.provider_of data))
               (missing_keys req creds))
            []
            [("provider",
              JStr (TranslateProviderCredentials.provider_of data))]) 1.
Proof.
  intros Hreq Hcreds Hmiss.
  rewrite (main_supported _ _ _ Hreq Hcreds).
  destruct (probe_returns (TranslateProviderCredentials.provider_of data)
              req creds (TranslateProviderCredentials.required req)
              (fun k => requirement_ok_env req k (table_ok _ _ Hreq)) [] [])
    as (errs & mapped & Hprobe).
  rewrite Hprobe. apply probe_errors in Hprobe. simpl in Hprobe.
  fold (missing_keys req creds) in Hprobe. subst errs.
  destruct (missing_keys req creds); [contradiction | reflexivity].
Qed.

Lemma dict_set_new {V : Type} (k : string) (v : V) (d : dict V) :
  lookup k d = None -> dict_set k v d = (d ++ [(k, v)])%list.
Proof.
  induction d as [|[k' v'] d IH]; simpl; [reflexivity|].
  destruct (k =? k'); [discriminate|]. intro H. now rewrite IH.
Qed.

Lemma lookup_app_none {V : Type} (k k' : string) (v : V) (d : dict V) :
  lookup k d = None -> k <> k' -> lookup k (d ++ [(k', v)])%list = None.
Proof.
  intros H Hne. induction d as [|[k0 v0] d IH]; simpl in *.
  - apply String.eqb_neq in Hne. now rewrite Hne.
  - destruct (k =? k0); [discriminate | auto].
Qed.

Lemma probe_maps_all {R : PyRuntime} (provider : string)
    (req : TranslateProviderCredentials.requirement) (creds : dict json)
    (keys : list string) :
  (forall k, In k keys ->
             has_key k (TranslateProviderCredentials.env req) = true) ->
  (forall k, In k keys -> truthy (get creds k) = true) ->
  NoDup (map (env_name req) keys) ->
  forall errs mapped,
    (forall k, In k keys -> lookup (env_name req k) mapped = None) ->
    TranslateProviderCredentials.probe provider req creds keys errs mapped
    = inr (errs,
           (mapped
            ++ map (fun k => (env_name req k, py_str (get creds k))) keys)%list).
Proof.
  induction keys as [|k keys IH]; simpl; intros Henv Htruthy Hnd errs mapped Hm.
  - now rewrite app_nil_r.
  - rewrite (Htruthy k (or_introl eq_refl)). simpl.
    pose proof (Htruthy k (or_introl eq_refl)) as T.
    unfold get, get_default in T |- *.
    destruct (lookup k creds) as [v|] eqn:Ev; [|discriminate].
    pose proof (Henv k (or_introl eq_refl)) as Hk. unfold has_key in Hk.
    pose proof (Hm k (or_introl eq_refl)) as Hmk. unfold env_name in Hmk |- *.
    destruct (lookup k (TranslateProviderCredentials.env req))
      as [name|] eqn:En; [|discriminate].
    rewrite (dict_set_new _ _ _ Hmk).
    inversion Hnd as [|? ? Hnotin Hnd']; subst.
    rewrite IH; auto.
    + rewrite <- app_assoc. reflexivity.
    + intros k' Hk'. apply lookup_app_none; [auto|].
      intro E. apply Hnotin.
      replace (env_name req k) with name
        by (unfold env_name; now rewrite En).
      rewrite <- E. now apply in_map.
Qed.

Lemma table_env_names (provider : string)
    (req : TranslateProviderCredentials.requirement) :
  lookup provider TranslateProviderCredentials.PROVIDER_REQUIREMENTS
  = Some req ->
  NoDup (map (env_name req) (TranslateProviderCredentials.required req)).
Proof.
  intro H. apply lookup_In in H. simpl in H.
  destruct H as [H | [H | [H | [H | [H | []]]]]]; injection H as _ <-;
    cbv [env_name map TranslateProviderCredentials.required
           TranslateProviderCredentials.env];
    simpl; repeat constructor; simpl; intuition discriminate.
Qed.

(** X15: for a supported provider with every required key given, the
    result maps each environment variable of the table to the text of its
    credential, in the order of the table; keys the provider does not
    require are left out. *)
Theorem complete_credentials_mapped {R : PyRuntime} (data creds : dict json)
    (req : TranslateProviderCredentials.requirement) :
  lookup (TranslateProviderCredentials.provider_of data)
    TranslateProviderCredentials.PROVIDER_REQUIREMENTS = Some req ->
  get data "credentials" = JDict creds ->
  missing_keys req creds = [] ->
  TranslateProviderCredentials.main (JDict data)
  = Emit (mk_envelope true TranslateProviderCredentials.tool_name [] []
            [("provider",
              JStr (TranslateProviderCredentials.provider_of data));
             ("env_mapping", JDict (env_mapping_of req creds))]) 0.
Proof.
  intros Hreq Hcreds Hmiss.
  rewrite (main_supported _ _ _ Hreq Hcreds).
  rewrite (probe_maps_all _ req creds
             (TranslateProviderCredentials.required req)).
  - simpl. unfold env_mapping_of. rewrite map_map. reflexivity.
  - intros k Hk. exact (requirement_ok_env req k (table_ok _ _ Hreq) Hk).
  - intros k Hk. unfold missing_keys in Hmiss.
    destruct (truthy (get creds k)) eqn:T; [reflexivity|].
    assert (Hin : In k (filter (fun k => negb (truthy (get creds k)))
                          (TranslateProviderCredentials.required req))).
    { apply filter_In. split; [assumption|]. now rewrite T. }
    rewrite Hmiss in Hin. contradiction.
  - exact (table_env_names _ _ Hreq).
  - reflexivity.
Qed.

Lemma complete_credentials_mapped_witness :
  TranslateProviderCredentials.main (R := ascii_runtime) (JDict github_login)
  = Emit (mk_envelope true TranslateProviderCredentials.tool_name [] []
            [("provider", JStr "github");
             ("env_mapping",
              JDict [("GITHUB_CLIENT_ID", JStr "4211");
                     ("GITHUB_CLIENT_SECRET", JStr "s3cr3t")])]) 0.
Proof.
  exact (complete_credentials_mapped (R := ascii_runtime) github_login
           github_credentials
           {| TranslateProviderCredentials.required :=
                ["client_id"; "client_secret"];
              TranslateProviderCredentials.env :=
                [("client_id", "GITHUB_CLIENT_ID");
                 ("client_secret", "GITHUB_CLIENT_SECRET")] |}
           eq_refl eq_refl eq_refl).
Defined.

Lemma missing_credentials_listed_witness :
  TranslateProviderCredentials.main (R := ascii_runtime)
    (JDict apple_zero_client_id)
  = Emit (mk_envelope false TranslateProviderCredentials.tool_name
            [TranslateProviderCredentials.missing_credential
               "apple" "client_id"]
            [] [("provider", JStr "apple")]) 1.
Proof.
  refine (missing_credentials_listed (R := ascii_runtime)
            apple_zero_client_id apple_credentials
            {| TranslateProviderCredentials.required :=
                 ["client_id"; "team_id"; "key_id"; "private_key"];
               TranslateProviderCredentials.env :=
                 [("client_id", "APPLE_CLIENT_ID");
                  ("team_id", "APPLE_TEAM_ID");
                  ("key_id", "APPLE_KEY_ID");
                  ("private_key", "APPLE_PRIVATE_KEY")] |}
            eq_refl eq_refl _).
  vm_compute. discriminate.
Defined.

(** ** The payment validators: what is fulfilled *)
Lemma no_str_mismatch (expected actual : json) :
  is_str expected && is_str actual && py_ne actual expected = false
  <-> same_if_str expected actual.
Proof.
  unfold same_if_str, py_ne.
  destruct expected, actual; simpl; split; intro H;
    try reflexivity; try (intros ? ? ? ?; discriminate).
  - intros ? ? E1 E2. injection E1 as <-. injection E2 as <-.
    now apply negb_false_iff, String.eqb_eq in H.
  - apply negb_false_iff, String.eqb_eq. now apply H.
Qed.

Lemma no_int_mismatch (expected actual : json) :
  is_int expected && is_int actual && py_ne actual expected = false
  <-> same_if_int expected actual.
Proof.
  unfold same_if_int, py_ne.
  destruct expected as [|a|m| | | |], actual as [|b|n| | | |];
    cbn [is_int andb negb py_eq int_value]; split; intro H;
    try reflexivity; try (intros ? ? ? ?; discriminate);
    try (intros ? ? E1 E2; injection E1 as <-; injection E2 as <-;
         apply negb_false_iff in H);
    try (apply negb_false_iff; specialize (H _ _ eq_refl eq_refl)).
  all: try (apply Z.eqb_eq in H; cbn [Z_of_bool] in *; congruence);
    try (apply Z.eqb_eq; cbn [Z_of_bool] in *; congruence);
    destruct a, b; cbn in *; congruence.
Qed.

Lemma py_ne_JStr (v : json) (s : string) :
  py_ne v (JStr s) = false <-> v = JStr s.
Proof. unfold py_ne. rewrite negb_false_iff. apply py_eq_JStr. Qed.

Lemma missing_iff (k : string) (d : dict json) :
  negb (has_key k d) = false <-> has_key k d = true.
Proof. apply negb_false_iff. Qed.

Lemma accepted_iff_no_errors (errs : list error) (t : string)
    (w : list string) (r : dict json) (env0 : envelope) :
  (exists env,
      match errs with
      | [] => Emit env0 0
      | _ :: _ => Emit (mk_envelope false t errs w r) 1
      end = Emit env 0)
  <-> errs = [].
Proof.
  destruct errs; split; try reflexivity.
  - intros _. now exists env0.
  - intros [env H]. discriminate.
  - discriminate.
Qed.

Lemma accepted_no_errors (errs : list error) (t : string)
    (w : list string) (r : dict json) (env0 env : envelope) :
  match errs with
  | [] => Emit env0 0
  | _ :: _ => Emit (mk_envelope false t errs w r) 1
  end = Emit env 0 ->
  errs = [].
Proof. destruct errs; [reflexivity | discriminate]. Qed.

(** [H] says that a run which appended an error was accepted. *)
Ltac rejected H :=
  apply accepted_no_errors in H;
  repeat (apply check_nil in H; destruct H as [_ H]);
  first [ discriminate H
        | apply app_eq_nil in H; destruct H; discriminate ].

(** X5: for an order that is not paid, validate-payment-contract ends
    with status 0 exactly when both expectations and the three payload
    fields are present, the status is "success" and neither the reference
    nor the amount differs. *)
Theorem payment_fulfilled_iff {R : PyRuntime} (data : dict json) :
  get data "order_status" <> JStr "paid" ->
  (exists env, ValidatePaymentContract.main (JDict data) = Emit env 0)
  <-> payment_verified data.
Proof.
  intro Hpaid. unfold ValidatePaymentContract.main.
  rewrite (py_eq_JStr_false _ _ Hpaid). cbv zeta. cbn [fold_left].
  unfold payment_verified, get_default.
  destruct (lookup "verify_payload" data) as [vp|] eqn:Evp.
  - rewrite (has_key_lookup _ _ _ Evp).
    destruct vp as [| | | | | |payload]; cbv beta iota.
    7: { rewrite accepted_iff_no_errors, !check_nil.
         rewrite !missing_iff, py_ne_JStr, no_str_mismatch, no_int_mismatch.
         split.
         - intros (S & A & Rf & K3 & K2 & K1 & _ & K0b & K0a & _).
           exists payload. repeat split; assumption.
         - intros (p & E & K0a & K0b & K1 & K2 & K3 & S & Rf & A).
           injection E as <-. repeat split; assumption. }
    all: split;
      [ intros [env H]; rejected H | intros (p & E & _); discriminate ].
  - split; [|intros (p & E & _); discriminate].
    assert (K : has_key "verify_payload" data = false)
      by (unfold has_key; now rewrite Evp).
    rewrite K. cbv beta iota. intros [env H].
    apply accepted_no_errors in H.
    do 6 (apply check_nil in H; destruct H as [_ H]).
    apply check_nil in H. destruct H as [H _]. discriminate H.
Qed.

Lemma payment_fulfilled_iff_witness :
  get contract_success "order_status" <> JStr "paid"
  /\ ((exists env,
         ValidatePaymentContract.main (R := ascii_runtime)
           (JDict contract_success) = Emit env 0)
      <-> payment_verified contract_success).
Proof.
  assert (H : get contract_success "order_status" <> JStr "paid")
    by (vm_compute; discriminate).
  split; [exact H|].
  exact (payment_fulfilled_iff (R := ascii_runtime) contract_success H).
Defined.

Lemma no_int_mismatch_sym (expected actual : json) :
  is_int expected && is_int actual && py_ne expected actual = false
  <-> same_if_int expected actual.
Proof.
  rewrite <- no_int_mismatch. unfold py_ne.
  destruct expected as [|a|m| | | |], actual as [|b|n| | | |];
    cbn [is_int andb py_eq]; try reflexivity.
  - now destruct a, b.
  - now rewrite Z.eqb_sym.
Qed.


Lemma not_is_True (v : json) :
  negb (is_True v) = false <-> v = JBool true.
Proof. rewrite negb_false_iff. apply is_True_iff. Qed.

Lemma accepted_exists (env0 : envelope) :
  (exists env, Emit env0 0 = Emit env 0) <-> True.
Proof. split; [trivial | intros _; now exists env0]. Qed.

(** X4: for an order that is not paid, validate-verify-response ends
    with status 0 exactly when the verification is pending, or is settled
    ("successful", every field present, no tx_ref or amount difference). *)
Theorem verify_fulfilled_iff {R : PyRuntime} (data : dict json) :
  get data "order_status" <> JStr "paid" ->
  (exists env, ValidateVerifyResponse.main (JDict data) = Emit env 0)
  <-> verify_pending data \/ verify_settled data.
Proof.
  intro Hpaid. unfold ValidateVerifyResponse.main.
  rewrite (py_eq_JStr_false _ _ Hpaid). cbv zeta. cbn [fold_left].
  unfold verify_pending, verify_settled, get_default.
  destruct (lookup "verify_payload" data) as [vp|] eqn:Evp.
  - rewrite (has_key_lookup _ _ _ Evp).
    destruct vp as [| | | | | |payload]; cbv beta iota.
    7: { destruct (py_eq (get payload "status")
                     (JStr "success-pending-validation")) eqn:Ep.
         - rewrite accepted_exists. split; [intros _|trivial].
           left. exists payload. split; [reflexivity|].
           now apply py_eq_JStr.
         - rewrite accepted_iff_no_errors, !check_nil.
           rewrite !missing_iff, py_ne_JStr, no_str_mismatch,
             no_int_mismatch.
           split.
           + intros (S & A & Rf & K3 & K2 & K1 & _ & K0b & K0a & _).
             right. exists payload. repeat split; assumption.
           + intros [(p & E & S) | (p & E & K0a & K0b & K1 & K2 & K3 & S
                                    & Rf & A)]; injection E as <-.
             * apply py_eq_JStr in S. congruence.
             * repeat split; assumption. }
    all: change (py_eq (get [] "status") (JStr "success-pending-validation"))
           with false; cbv iota;
      split;
      [ intros [env H]; rejected H
      | intros [(p & E & _) | (p & E & _)]; discriminate ].
  - split; [|intros [(p & E & _) | (p & E & _)]; discriminate].
    assert (K : has_key "verify_payload" data = false)
      by (unfold has_key; now rewrite Evp).
    rewrite K. cbv beta iota.
    change (py_eq (get [] "status") (JStr "success-pending-validation"))
      with false; cbv iota.
    intros [env H]. apply accepted_no_errors in H.
    do 6 (apply check_nil in H; destruct H as [_ H]).
    apply check_nil in H. destruct H as [H _]. discriminate H.
Qed.

Lemma verify_fulfilled_iff_witness :
  get settled_mismatch "order_status" <> JStr "paid"
  /\ ((exists env,
         ValidateVerifyResponse.main (R := ascii_runtime)
           (JDict settled_mismatch) = Emit env 0)
      <-> verify_pending settled_mismatch \/ verify_settled settled_mismatch).
Proof.
  assert (H : get settled_mismatch "order_status" <> JStr "paid")
    by (vm_compute; discriminate).
  split; [exact H|].
  exact (verify_fulfilled_iff (R := ascii_runtime) settled_mismatch H).
Defined.



Lemma not_emit_crash (e : pyexc) :
  (exists env, Crash e = Emit env 0) <-> False.
Proof. split; [intros [env H]; discriminate | contradiction]. Qed.

(** ** check-webhook-signature-mode: what is accepted *)

(** X9: check-webhook-signature-mode ends with status 0 exactly when
    [headers] is an object and either the mode is verif-hash with a
    verif-hash header, or the mode is hmac-sha256 with the raw body enabled
    and an x-flutterwave-signature header.  In verif-hash mode
    [raw_body_enabled] plays no part. *)
Theorem signature_accepted_iff {R : PyRuntime} (p : process)
    (data : dict json) :
  (exists env, CheckWebhookSignatureMode.main p (JDict data) = Emit env 0)
  <-> signature_checked data.
Proof.
  unfold CheckWebhookSignatureMode.main, signature_checked. cbv zeta.
  destruct (get data "signature_mode") as [| | | |s| |] eqn:Em;
    cbn [hashable negb in_strs check app].
  5: { destruct (String.eqb_spec s "verif-hash") as [->|Nv];
       [|destruct (String.eqb_spec s "hmac-sha256") as [->|Nh]].
       - cbn [CheckWebhookSignatureMode.VALID_MODES existsb String.eqb
                Ascii.eqb Bool.eqb orb negb check py_eq andb].
         destruct (get data "headers") as [| | | | | |headers];
           cbv beta iota; rewrite accepted_iff_no_errors.
         7: { rewrite check_nil, negb_false_iff. split.
              - intros [T _]. exists headers. split; [reflexivity|].
                left. now split.
              - intros (h & E & [[_ T] | [E' _]]);
                  [injection E as <-; now split | discriminate]. }
         all: split; [discriminate | intros (h & E & _); discriminate].
       - cbn [CheckWebhookSignatureMode.VALID_MODES existsb String.eqb
                Ascii.eqb Bool.eqb orb negb check py_eq andb].
         destruct (get data "headers") as [| | | | | |headers];
           cbv beta iota; rewrite accepted_iff_no_errors, !check_nil.
         7: { rewrite not_is_True, negb_false_iff. split.
              - intros (T & Rb & _). exists headers. split; [reflexivity|].
                right. now repeat split.
              - intros (h & E & [[E' _] | (_ & Rb & T)]);
                  [discriminate | injection E as <-; now repeat split]. }
         all: split;
           [ intros (_ & _ & H); discriminate
           | intros (h & E & _); discriminate ].
       - assert (Hin : existsb (String.eqb s)
                         CheckWebhookSignatureMode.VALID_MODES = false).
         { simpl. apply String.eqb_neq in Nv, Nh. now rewrite Nv, Nh. }
         rewrite Hin. cbn [negb check app].
         assert (Hv : py_eq (JStr s) (JStr "verif-hash") = false)
           by now apply String.eqb_neq.
         assert (Hh : py_eq (JStr s) (JStr "hmac-sha256") = false)
           by now apply String.eqb_neq.
         rewrite Hv, Hh.
         destruct (get data "headers"); cbv beta iota;
           (split;
            [ intros [env H]; cbn [check app negb andb] in H; discriminate H
            | intros (h & _ & [[E' _] | [E' _]]); congruence ]). }
  all: try (rewrite not_emit_crash; split; [contradiction|];
            intros (h & _ & [[E' _] | [E' _]]); discriminate).
  all: destruct (get data "headers"); cbv beta iota;
    (split;
     [ intros [env H]; cbn [check app negb andb py_eq] in H; discriminate H
     | intros (h & _ & [[E' _] | [E' _]]); discriminate ]).
Qed.

Lemma item_checked (d : dict json) :
  negb (has_key "name" d) || negb (has_key "ok" d) = false
  <-> item_ok (JDict d).
Proof.
  unfold item_ok. split.
  - intro H. apply orb_false_iff in H. destruct H as [H1 H2].
    apply negb_false_iff in H1, H2. now exists d.
  - intros (d' & E & H1 & H2). injection E as <-. now rewrite H1, H2.
Qed.

Lemma check_items_nil {R : PyRuntime} (items : list json) :
  forall (idx : nat) (errs : list error),
    ValidateOutputSchema.check_items items idx errs = []
    <-> errs = [] /\ Forall item_ok items.
Proof.
  induction items as [|item items IH]; intros idx errs; simpl.
  - split; [intro H; split; [assumption | constructor] | now intros [H _]].
  - destruct item as [| | | | | |d]; rewrite IH.
    7: { rewrite check_nil, item_checked. split.
         - intros [[H1 H2] H3]. split; [assumption | now constructor].
         - intros [H1 H2]. inversion H2; subst. now repeat split. }
    all: split;
      [ intros [H _]; apply app_eq_nil in H; destruct H; discriminate
      | intros [_ H]; inversion H as [|? ? (d & E & _)]; discriminate ].
Qed.

Lemma summary_checked {R : PyRuntime} (v : json) :
  match v with JStr summary => py_strip summary =? "" | _ => false end
  = false
  <-> (forall s, v = JStr s -> py_strip s <> "").
Proof.
  destruct v; split; intro H; try reflexivity;
    try (intros ? ?; discriminate).
  - intros s' E. injection E as <-. now apply String.eqb_neq.
  - apply String.eqb_neq. now apply H.
Qed.

Lemma array_checked (v : json) :
  negb (is_None v) && negb (is_list v) = false
  <-> (v = JNull \/ exists l, v = JList l).
Proof.
  destruct v; simpl; split; intro H; try reflexivity; try discriminate;
    try (destruct H as [H | [l H]]; discriminate).
  - now left.
  - right. eauto.
Qed.

Lemma Forall_four {A : Type} (P : A -> Prop) (a b c d : A) :
  Forall P [a; b; c; d] <-> P a /\ P b /\ P c /\ P d.
Proof.
  rewrite !Forall_cons_iff, Forall_nil_iff. tauto.
Qed.

Lemma Forall_two {A : Type} (P : A -> Prop) (a b : A) :
  Forall P [a; b] <-> P a /\ P b.
Proof.
  rewrite !Forall_cons_iff, Forall_nil_iff. tauto.
Qed.

(** ** validate-output-schema: what is accepted *)

(** X16: validate-output-schema ends with status 0 exactly on a valid
    document: the four root keys and the four [machine_json] keys present,
    a summary that is not blank text, [artifacts] and [next_actions] null
    or arrays, [validation_results] null or an array of objects with
    [name] and [ok]. *)
Theorem schema_accepted_iff {R : PyRuntime} (data : dict json) :
  (exists env, ValidateOutputSchema.main (JDict data) = Emit env 0)
  <-> schema_valid data.
Proof.
  unfold ValidateOutputSchema.main, schema_valid,
    ValidateOutputSchema.REQUIRED_ROOT, ValidateOutputSchema.REQUIRED_MACHINE.
  cbv zeta. cbn [fold_left].
  destruct (get data "machine_json") as [| | | | | |machine] eqn:Em;
    cbv beta iota.
  7: { destruct (get machine "validation_results") as [| | | | |items|]
         eqn:Er; cbv iota.
       1: { rewrite accepted_iff_no_errors, !check_nil, !missing_iff,
              !array_checked, summary_checked.
            split.
            - intros (N & A & S & M4 & M3 & M2 & M1 & R4 & R3 & R2 & R1 & _).
              split; [now apply Forall_four|].
              split; [assumption|]. split; [now apply Forall_two|].
              exists machine. split; [reflexivity|].
              split; [now apply Forall_four | now left].
            - intros (Rt & S & Ar & (m & E & M & _)).
              injection E as <-.
              apply Forall_four in Rt, M. apply Forall_two in Ar.
              destruct Rt as (R1 & R2 & R3 & R4), M as (M1 & M2 & M3 & M4),
                Ar as (A & N).
              repeat split; assumption. }
       5: { rewrite accepted_iff_no_errors, check_items_nil, !check_nil,
              !missing_iff, !array_checked, summary_checked.
            split.
            - intros ((N & A & S & M4 & M3 & M2 & M1 & R4 & R3 & R2 & R1 & _)
                      & I).
              split; [now apply Forall_four|].
              split; [assumption|]. split; [now apply Forall_two|].
              exists machine. split; [reflexivity|].
              split; [now apply Forall_four|].
              right. exists items. now split.
            - intros (Rt & S & Ar & (m & E & M & V)).
              injection E as <-.
              apply Forall_four in Rt, M. apply Forall_two in Ar.
              destruct Rt as (R1 & R2 & R3 & R4), M as (M1 & M2 & M3 & M4),
                Ar as (A & N).
              destruct V as [V | (items' & V & I)]; [congruence|].
              rewrite Er in V. injection V as <-.
              repeat split; assumption. }
       all: split;
         [ intros [env H]; rejected H
         | intros (_ & _ & _ & (m & E & _ & V)); injection E as <-;
           destruct V as [V | (items' & V & _)]; congruence ]. }
  all: change (get [] "validation_results") with JNull; cbv iota;
    split;
    [ intros [env H]; rejected H
    | intros (_ & _ & _ & (m & E & _)); discriminate ].
Qed.

(** ** validation_results: a bad entry is reported at its index *)

Lemma check_items_incl {R : PyRuntime} (e : error) (items : list json) :
  forall idx errs,
    In e errs -> In e (ValidateOutputSchema.check_items items idx errs).
Proof.
  induction items as [|item items IH]; simpl; intros idx errs H;
    [assumption|].
  destruct item; apply IH;
    try (apply in_or_app; now left).
  now apply In_check.
Qed.

Lemma check_items_reports {R : PyRuntime} (items : list json) :
  forall (i idx : nat) (errs : list error) (item : json),
    nth_error items i = Some item ->
    ~ item_ok item ->
    exists e,
      In e (ValidateOutputSchema.check_items items idx errs)
      /\ path e = item_path (idx + i)
      /\ code e = if is_dict item then "MISSING_FIELD" else "INVALID_ITEM".
Proof.
  induction items as [|x items IH]; intros [|i] idx errs item Hn Hbad;
    try discriminate Hn.
  - simpl in Hn. injection Hn as ->. rewrite Nat.add_0_r.
    cbn [ValidateOutputSchema.check_items].
    destruct item as [| | | | | |d];
      try (eexists; split;
           [ apply check_items_incl, in_or_app; right; left; reflexivity
           | split; reflexivity ]).
    destruct (negb (has_key "name" d) || negb (has_key "ok" d)) eqn:C.
    + eexists. split; [apply check_items_incl, In_check_here|].
      split; reflexivity.
    + exfalso. apply Hbad. now apply item_checked.
  - simpl in Hn. rewrite Nat.add_succ_r, <- Nat.add_succ_l.
    cbn [ValidateOutputSchema.check_items].
    destruct x; now apply IH.
Qed.

(** X17: an entry of [validation_results] that is not an object, or
    lacks [name] or [ok], is reported under its own index. *)
Theorem bad_item_reported {R : PyRuntime} (data machine : dict json)
    (items : list json) (i : nat) (item : json) :
  get data "machine_json" = JDict machine ->
  get machine "validation_results" = JList items ->
  nth_error items i = Some item ->
  ~ item_ok item ->
  exists env e,
    ValidateOutputSchema.main (JDict data) = Emit env 1
    /\ In e (errors env)
    /\ path e = item_path i
    /\ code e = if is_dict item then "MISSING_FIELD" else "INVALID_ITEM".
Proof.
  intros Hm Hr Hn Hbad. unfold ValidateOutputSchema.main.
  rewrite Hm. cbv beta iota zeta. rewrite Hr. cbv iota.
  match goal with
  | |- context [ValidateOutputSchema.check_items items 0 ?E] =>
      destruct (check_items_reports items i 0 E item Hn Hbad)
        as (e & Hin & Hp & Hc);
      destruct (ValidateOutputSchema.check_items items 0 E) eqn:Eq;
      [contradiction|]
  end.
  eexists. exists e. split; [reflexivity|]. now split.
Qed.

Lemma bad_item_reported_witness :
  exists env e,
    ValidateOutputSchema.main (R := ascii_runtime) (JDict second_item_bad)
    = Emit env 1
    /\ In e (errors env)
    /\ path e = "machine_json.validation_results[1]"
    /\ code e = "INVALID_ITEM".
Proof.
  refine (bad_item_reported (R := ascii_runtime) second_item_bad _ _ 1
            (JStr "tests passed") eq_refl eq_refl eq_refl _).
  intros (d & E & _). discriminate E.
Defined.

(** ** Uncaught exceptions *)

(** X18: the five validators without a raising library call end in an
    uncaught exception exactly when the document is not an object. *)
Theorem crash_only_on_non_object {R : PyRuntime} (p : process)
    (v : validator) (data : json) :
  v <> check_webhook_signature_mode ->
  v <> validate_redirect_uri ->
  (crashes (run p v data) <-> is_dict data = false).
Proof.
  intros Hs Hr. destruct data as [| | | | | |d].
  7: { split; [|discriminate]. intros [e He]. exfalso.
       assert (Hemit : emits (run p v (JDict d))).
       { apply object_input_emits. destruct v; try exact I; contradiction. }
       destruct Hemit as (env & c & Hemit). congruence. }
  all: split; [reflexivity|]; intros _;
    destruct v; eexists; reflexivity.
Qed.

Lemma crash_only_on_non_object_witness :
  crashes (run (R := ascii_runtime) process0 validate_output_schema
             (JList [JDict numeric_summary]))
  <-> is_dict (JList [JDict numeric_summary]) = false.
Proof.
  apply (crash_only_on_non_object (R := ascii_runtime) process0
           validate_output_schema); discriminate.
Defined.

(** ** AMOUNT_MISMATCH is only reported for two different ints *)

Lemma Exists_check (P : error -> Prop) (c : bool) (e : error)
    (errs : list error) :
  Exists P (check c e errs) -> (c = true /\ P e) \/ Exists P errs.
Proof.
  rewrite check_app. intro H. apply Exists_app in H.
  destruct H as [H | H]; [now right|].
  destruct c; [|inversion H]. left. split; [reflexivity|].
  inversion H as [? ? H'|? ? H']; [assumption | inversion H'].
Qed.

Lemma int_mismatch (expected actual : json) :
  is_int expected && is_int actual && py_ne actual expected = true ->
  exists m n, int_value expected = Some m /\ int_value actual = Some n
              /\ m <> n.
Proof.
  unfold py_ne.
  destruct expected as [|a|m| | | |], actual as [|b|n| | | |];
    cbn [is_int andb py_eq int_value]; try discriminate;
    intro H; apply negb_true_iff in H; do 2 eexists;
    (split; [reflexivity|]); (split; [reflexivity|]).
  - destruct a, b; try discriminate; cbn; discriminate.
  - apply Z.eqb_neq in H. congruence.
  - apply Z.eqb_neq in H. congruence.
  - apply Z.eqb_neq in H. congruence.
Qed.

Lemma int_mismatch_sym (expected actual : json) :
  is_int expected && is_int actual && py_ne expected actual = true ->
  exists m n, int_value expected = Some m /\ int_value actual = Some n
              /\ m <> n.
Proof.
  intro H. apply int_mismatch.
  destruct (is_int expected && is_int actual && py_ne actual expected) eqn:E;
    [reflexivity|].
  apply no_int_mismatch, no_int_mismatch_sym in E. congruence.
Qed.

Lemma listed_in_errors (errs : list error) (t : string)
    (w : list string) (r : dict json) (env0 env : envelope) (st c : Z) :
  match errs with
  | [] => Emit env0 c
  | _ :: _ => Emit (mk_envelope false t errs w r) 1
  end = Emit env st ->
  errors env0 = [] ->
  forall P, Exists P (errors env) -> Exists P errs.
Proof.
  intros H H0 P HP. destruct errs; injection H as <- _; simpl in HP.
  - rewrite H0 in HP. inversion HP.
  - assumption.
Qed.

(** Walk the checks behind [H : Exists (code = c) errors], leaving the
    checks whose error has code [c]. *)
Ltac code_cases H :=
  repeat match type of H with
    | Exists _ (check _ _ _) =>
        apply Exists_check in H; destruct H as [[? H] | H];
        [try discriminate H|]
    | Exists _ (_ ++ _) =>
        apply Exists_app in H; destruct H as [H | H]
    | Exists _ (_ :: _) =>
        apply Exists_cons in H; destruct H as [H | H];
        [try discriminate H|]
    | Exists _ [] => inversion H
    end.

(** X7: a payment validator lists AMOUNT_MISMATCH only when the expected
    and the received amount are both ints (bools included) of different
    value; an amount given as text or as a float is never reported. *)
Theorem amount_mismatch_sound {R : PyRuntime} (p : process) (v : validator)
    (data : dict json) (expected actual : json) (env : envelope) (st : Z) :
  compared_amounts v data = Some (expected, actual) ->
  run p v (JDict data) = Emit env st ->
  has_code "AMOUNT_MISMATCH" env ->
  exists m n,
    int_value expected = Some m /\ int_value actual = Some n /\ m <> n.
Proof.
  unfold has_code, compared_amounts, payload_of.
  destruct v; cbv beta iota; intros Hc Hrun Hcode; try discriminate Hc;
    injection Hc as <- <-; unfold run in Hrun.
  - unfold ValidateVerifyResponse.main in Hrun. cbv beta iota zeta in Hrun.
    destruct (get_default data "verify_payload" (JDict []));
      cbv beta iota in Hrun;
      (destruct (py_eq (get data "order_status") (JStr "paid"));
       [injection Hrun as <- _; inversion Hcode|]);
      (match type of Hrun with
       | (if ?c then _ else _) = _ =>
           destruct c; [injection Hrun as <- _; inversion Hcode|]
       end);
      apply (listed_in_errors _ _ _ _ _ _ _ _ Hrun eq_refl) in Hcode;
      cbn [fold_left] in Hcode; code_cases Hcode;
      now apply int_mismatch.
  - unfold CheckWebhookContract.main in Hrun. cbv beta iota zeta in Hrun.
    destruct (get data "headers"); cbv beta iota in Hrun;
      (destruct (py_eq (get data "order_status") (JStr "paid"));
       [injection Hrun as <- _; inversion Hcode|]);
      apply (listed_in_errors _ _ _ _ _ _ _ _ Hrun eq_refl) in Hcode;
      code_cases Hcode; now apply int_mismatch_sym.
  - unfold ValidatePaymentContract.main in Hrun. cbv beta iota zeta in Hrun.
    destruct (get_default data "verify_payload" (JDict []));
      cbv beta iota in Hrun;
      (destruct (py_eq (get data "order_status") (JStr "paid"));
       [injection Hrun as <- _; inversion Hcode|]);
      apply (listed_in_errors _ _ _ _ _ _ _ _ Hrun eq_refl) in Hcode;
      cbn [fold_left] in Hcode; code_cases Hcode;
      now apply int_mismatch.
Qed.

Lemma amount_mismatch_sound_witness :
  exists m n,
    int_value (JInt 5000) = Some m /\ int_value (JInt 4000) = Some n
    /\ m <> n.
Proof.
  refine (amount_mismatch_sound (R := ascii_runtime) process0
            validate_payment_contract underpaid_order (JInt 5000) (JInt 4000)
            _ 1 eq_refl eq_refl _).
  unfold has_code. cbn [errors]. apply Exists_cons_hd. reflexivity.
Defined.
